(** * Webhook handlers of [7_webhook_server.py]

    A shallow embedding of the webhook handlers, of the library objects they
    build and read (contexts, results, forms, experiment steps) and of the
    route table of the server, followed by the properties of the
    specification that were checked on them. *)

From stdpp Require Import gmap strings list fin_maps pretty.
From Stdlib Require Import ZArith QArith Qabs Qpower Qfield Lia Ascii.

Local Open Scope Z_scope.

(** ** Python exceptions *)

(** Exceptions the handlers can let escape. [SapioServerException] stands for
    any failure of a call to the platform. *)
Inductive PyExn :=
| ZeroDivisionError
| OverflowError
| AttributeError
| TypeError
| IndexError
| SapioServerException (msg : string).

(** [sep.join(l)] *)
Fixpoint join (sep : string) (l : list string) : string :=
  match l with
  | [] => ""
  | [x] => x
  | x :: rest => x +:+ sep +:+ join sep rest
  end.

(** ** Python floats: [int / int] and [str(float)] *)

Module PyFloat.

(** A finite binary64 value [(-1)^sign * mant * 2^expo]. A non-zero value is
    kept normalised: [2^52 <= mant < 2^53], or [expo = emin] for a subnormal. *)
Record t := mk { sign : bool; mant : Z; expo : Z }.

Definition emin : Z := -1074.

(** Largest exponent of a normalised finite value: above it the quotient does
    not fit a float. *)
Definition emax : Z := 971.

(** [floor (log2 (a / b))] for positive [a] and [b]. *)
Definition ratio_log2 (a b : Z) : Z :=
  let d := Z.log2 a - Z.log2 b in
  if 0 <=? d
  then (if b * 2 ^ d <=? a then d else d - 1)
  else (if b <=? a * 2 ^ (- d) then d else d - 1).

(** The quotient [a / b] of two positive integers rounded to 53 bits, to
    nearest and ties to even, as mantissa and exponent. *)
Definition round_ratio (a b : Z) : Z * Z :=
  if a =? 0 then (0, 0) else
  let e := Z.max (ratio_log2 a b - 52) emin in
  let num := a * 2 ^ Z.max (- e) 0 in
  let den := b * 2 ^ Z.max e 0 in
  let q := num / den in
  let r := num mod den in
  let q' := if (den <? 2 * r) || ((den =? 2 * r) && Z.odd q) then q + 1 else q in
  if q' =? 2 ^ 53 then (2 ^ 52, e + 1) else (q', e).

(** [a / b] on Python ints: true division, correctly rounded. *)
Definition int_true_div (a b : Z) : PyExn + t :=
  if b =? 0 then inl ZeroDivisionError else
  let '(m, e) := round_ratio (Z.abs a) (Z.abs b) in
  if emax <? e then inl OverflowError
  else inr (mk (xorb (a <? 0) (b <? 0)) m e).

(** The value of a float as a rational. *)
Definition to_Q (f : t) : Q :=
  (if sign f then -1 else 1) * inject_Z (mant f) * Qpower 2 (expo f).

(** *** Shortest decimal that reads back as the same float *)

(** Compare [X * 2^s] with [c * 10^k]. *)
Definition cmp_scaled (X s c k : Z) : comparison :=
  (X * 2 ^ Z.max s 0 * 10 ^ Z.max (- k) 0 ?= c * 10 ^ Z.max k 0 * 2 ^ Z.max (- s) 0).

(** [floor (X * 2^s / 10^k)] *)
Definition floor_scaled (X s k : Z) : Z :=
  (X * 2 ^ Z.max s 0 * 10 ^ Z.max (- k) 0) / (2 ^ Z.max (- s) 0 * 10 ^ Z.max k 0).

Fixpoint log10_search (fuel : nat) (X s t : Z) : Z :=
  match fuel with
  | O => t
  | S fuel' =>
      match cmp_scaled X s 1 (t + 1) with
      | Lt => t
      | _ => log10_search fuel' X s (t + 1)
      end
  end.

(** [floor (log10 (m * 2^e))]: an estimate from the binary logarithm that is
    at most the result, then a short upward search. *)
Definition floor_log10 (m e : Z) : Z :=
  let est := ((Z.log2 m + e) * 30103) / 100000 - 1 in
  log10_search 4 m e est.

(** Distance to the float below, in quarters of the distance to the float
    above: halved at a power of two. *)
Definition lower_gap (m e : Z) : Z :=
  if (m =? 2 ^ 52) && (emin <? e) then 1 else 2.

Definition in_low (incl : bool) (X s c k : Z) : bool :=
  match cmp_scaled X s c k with
  | Lt => true
  | Eq => incl
  | Gt => false
  end.

Definition in_high (incl : bool) (X s c k : Z) : bool :=
  match cmp_scaled X s c k with
  | Gt => true
  | Eq => incl
  | Lt => false
  end.

(** With [n] significant digits, the two decimals [c * 10^k] around
    [m * 2^e]; the first [n] at which one of them lies in the rounding
    interval of the float gives the digits, the nearer one when both do. *)
Fixpoint shortest (fuel : nat) (m e t n : Z) : Z * Z :=
  let s := e - 2 in
  let k := t - n + 1 in
  let incl := Z.even m in
  let c_lo := floor_scaled (4 * m) s k in
  let c_hi := c_lo + 1 in
  let ok_lo := in_low incl (4 * m - lower_gap m e) s c_lo k in
  let ok_hi := in_high incl (4 * m + 2) s c_hi k in
  let nearest :=
    match cmp_scaled (8 * m) s (2 * c_lo + 1) k with
    | Lt => c_lo
    | Gt => c_hi
    | Eq => if Z.even c_lo then c_lo else c_hi
    end in
  match ok_lo, ok_hi with
  | true, true => (nearest, k)
  | true, false => (c_lo, k)
  | false, true => (c_hi, k)
  | false, false =>
      match fuel with
      | O => (c_lo, k)
      | S fuel' => shortest fuel' m e t (n + 1)
      end
  end.

Fixpoint strip_zeros (fuel : nat) (c k : Z) : Z * Z :=
  match fuel with
  | O => (c, k)
  | S fuel' =>
      if (c mod 10 =? 0) && negb (c =? 0)
      then strip_zeros fuel' (c / 10) (k + 1)
      else (c, k)
  end.

(** The digits of the shortest decimal and the position of its decimal
    point, counted from the first digit. *)
Definition digits_of (m e : Z) : string * Z :=
  let t := floor_log10 m e in
  let '(c, k) := shortest 17 m e t 1 in
  let '(c', k') := strip_zeros 20 c k in
  let ds := pretty c' in
  (ds, Z.of_nat (String.length ds) + k').

Fixpoint zeros (n : nat) : string :=
  match n with
  | O => ""
  | S n' => "0" +:+ zeros n'
  end.

Fixpoint take_s (n : nat) (s : string) : string :=
  match n, s with
  | S n', String a s' => String a (take_s n' s')
  | _, _ => ""
  end.

Fixpoint drop_s (n : nat) (s : string) : string :=
  match n, s with
  | S n', String a s' => drop_s n' s'
  | _, _ => s
  end.

Definition exp_str (x : Z) : string :=
  let a := Z.abs x in
  (if x <? 0 then "-" else "+") +:+ (if a <? 10 then "0" else "") +:+ pretty a.

(** The layout of [repr]: exponent form below [1e-4] and from [1e16] on,
    positional otherwise, always with a fractional part. *)
Definition format_repr (ds : string) (decpt : Z) : string :=
  let nd := Z.of_nat (String.length ds) in
  if (decpt <=? -4) || (16 <? decpt) then
    take_s 1 ds +:+ (if 1 <? nd then "." +:+ drop_s 1 ds else "")
      +:+ "e" +:+ exp_str (decpt - 1)
  else if decpt <=? 0 then
    "0." +:+ zeros (Z.to_nat (- decpt)) +:+ ds
  else if decpt <? nd then
    take_s (Z.to_nat decpt) ds +:+ "." +:+ drop_s (Z.to_nat decpt) ds
  else
    ds +:+ zeros (Z.to_nat (decpt - nd)) +:+ ".0".

(** [str(f)] *)
Definition repr (f : t) : string :=
  (if sign f then "-" else "") +:+
  (if mant f =? 0 then "0.0"
   else let '(ds, decpt) := digits_of (mant f) (expo f) in format_repr ds decpt).

End PyFloat.

(** ** Python values *)

(** The values a form response or a record field can hold: [None], booleans,
    integers, finite floats and strings. *)
Inductive PyVal :=
| VNone
| VBool (b : bool)
| VInt (z : Z)
| VFloat (f : PyFloat.t)
| VStr (s : string).

(** [bool(v)] *)
Definition truthy (v : PyVal) : bool :=
  match v with
  | VNone => false
  | VBool b => b
  | VInt z => negb (z =? 0)
  | VFloat f => negb (PyFloat.mant f =? 0)
  | VStr s => negb (String.eqb s "")
  end.

(** [str(v)] *)
Definition py_str (v : PyVal) : string :=
  match v with
  | VNone => "None"
  | VBool true => "True"
  | VBool false => "False"
  | VInt z => pretty z
  | VFloat f => PyFloat.repr f
  | VStr s => s
  end.

(** [d.get(k)] on a dict: [None] when the key is missing. *)
Definition dict_get (d : gmap string PyVal) (k : string) : PyVal :=
  default VNone (d !! k).

(** ** Reading a decimal numeral back *)

Module Decimal.

Definition digit_of (a : ascii) : option Z :=
  let n := Z.of_N (Ascii.N_of_ascii a) in
  if (48 <=? n) && (n <=? 57) then Some (n - 48) else None.

Fixpoint digits_acc (s : string) (acc : Z) : option Z :=
  match s with
  | EmptyString => Some acc
  | String a s' =>
      match digit_of a with
      | Some d => digits_acc s' (10 * acc + d)
      | None => None
      end
  end.

(** A non-empty run of digits. *)
Definition natural (s : string) : option Z :=
  match s with
  | EmptyString => None
  | _ => digits_acc s 0
  end.

(** An optional sign, then digits. *)
Definition integer (s : string) : option Z :=
  match s with
  | String "-" s' => Z.opp <$> natural s'
  | String "+" s' => natural s'
  | _ => natural s
  end.

(** Split at the first occurrence of [c]. *)
Fixpoint split_at (c : ascii) (s : string) : string * option string :=
  match s with
  | EmptyString => (EmptyString, None)
  | String a s' =>
      if Ascii.eqb a c then (EmptyString, Some s')
      else let '(l, r) := split_at c s' in (String a l, r)
  end.

(** The rational written by [sign digits [. digits] [e sign digits]]. *)
Definition value (s : string) : option Q :=
  let '(neg, body) :=
    match s with
    | String "-" s' => (true, s')
    | _ => (false, s)
    end in
  let '(mantissa, exponent) := split_at "e" body in
  let '(whole, frac) := split_at "." mantissa in
  w ← natural whole;
  f ← match frac with
       | None => Some (0, 0%nat)
       | Some fs => n ← natural fs; Some (n, String.length fs)
       end;
  x ← match exponent with
       | None => Some 0
       | Some es => integer es
       end;
  let c := w * 10 ^ Z.of_nat f.2 + f.1 in
  Some ((if neg then -1 else 1) * inject_Z c * Qpower 10 (x - Z.of_nat f.2))%Q.

End Decimal.

(** ** Running a handler: state, output and exceptions *)

(** A computation either returns a value and a new state, or raises. *)
Inductive Outcome (S A : Type) :=
| Returned (a : A) (s : S)
| Raised (e : PyExn).

Arguments Returned {S A} a s.
Arguments Raised {S A} e.

Definition Run (S A : Type) : Type := S → Outcome S A.

Global Instance Run_ret {S} : MRet (Run S) := λ A a s, Returned a s.

Global Instance Run_bind {S} : MBind (Run S) := λ A B k m s,
  match m s with
  | Returned a s' => k a s'
  | Raised e => Raised e
  end.

Definition raise {S A} (e : PyExn) : Run S A := λ _, Raised e.

(** Attribute access or method call on an [Optional] value. *)
Definition attr {S A} (o : option A) : Run S A :=
  match o with
  | Some a => mret a
  | None => raise AttributeError
  end.

(** Iteration over an [Optional] list. *)
Definition iterable {S A} (o : option (list A)) : Run S (list A) :=
  match o with
  | Some l => mret l
  | None => raise TypeError
  end.

(** [l[0]] *)
Definition first_item {S A} (l : list A) : Run S A :=
  match l with
  | x :: _ => mret x
  | [] => raise IndexError
  end.

Definition of_sum {S A} (r : PyExn + A) : Run S A :=
  match r with
  | inr a => mret a
  | inl e => raise e
  end.

(** What a request can change: the lines printed on the console of the server
    and the state [W] of the platform behind the REST interface. *)
Record State (W : Type) := mkState { stdout : list string; platform : W }.

Arguments mkState {W} stdout platform.
Arguments stdout {W} s.
Arguments platform {W} s.

(** [print(line)] *)
Definition print {W} (line : string) : Run (State W) unit := λ st,
  Returned tt (mkState (stdout st ++ [line]) (platform st)).

(** A call to the platform, which changes the platform only. *)
Definition remote {W A} (call : Run W A) : Run (State W) A := λ st,
  match call (platform st) with
  | Returned a w => Returned a (mkState (stdout st) w)
  | Raised e => Raised e
  end.

(** ** Objects of the client library *)

Record DataRecord := mkDataRecord {
  record_data_type_name : string;
  record_id : Z;
  fields : gmap string PyVal
}.

(** [record.get_field_value(name)] *)
Definition get_field_value (record : DataRecord) (name : string) : PyVal :=
  dict_get (fields record) name.

(** [record.set_field_value(name, value)] *)
Definition set_field_value (record : DataRecord) (name : string) (value : PyVal)
  : DataRecord :=
  mkDataRecord (record_data_type_name record) (record_id record)
    (<[name := value]> (fields record)).

Record SapioUser := mkSapioUser { username : string }.

Record ElnExperiment := mkElnExperiment {
  notebook_experiment_id : Z;
  notebook_experiment_name : string
}.

Record ExperimentEntry := mkExperimentEntry {
  entry_id : Z;
  entry_name : string;
  data_type_name : string
}.

(** A step of an experiment: its entry, which carries the type tag, and the
    records the entry holds. *)
Record ElnEntryStep := mkElnEntryStep {
  eln_entry : ExperimentEntry;
  records : list DataRecord
}.

(** [step.get_records()] *)
Definition get_records (step : ElnEntryStep) : list DataRecord := records step.

Module ElnExperimentProtocol.

Record t := mk { eln_experiment : ElnExperiment; steps : list ElnEntryStep }.

Definition has_type (data_type_name' : string) (step : ElnEntryStep) : bool :=
  String.eqb (data_type_name (eln_entry step)) data_type_name'.

Definition same_step (a b : ElnEntryStep) : bool :=
  entry_id (eln_entry a) =? entry_id (eln_entry b).

(** Modelled from the spec: [get_first_step_of_type] belongs to the client
    library, which is not among the sources. Section 4.4: linear forward scan,
    first match or none. *)
Definition get_first_step_of_type (protocol : t) (data_type_name' : string)
  : option ElnEntryStep :=
  List.find (has_type data_type_name') (steps protocol).

(** Modelled from the spec: the position of a step in the sequence, which
    [get_next_step] starts from, is the first place that holds the entry of
    that step. *)
Fixpoint position (step : ElnEntryStep) (l : list ElnEntryStep) : option nat :=
  match l with
  | [] => None
  | s :: rest => if same_step s step then Some O else S <$> position step rest
  end.

(** Modelled from the spec: [get_next_step] belongs to the client library,
    which is not among the sources. Section 4.4: forward scan strictly after
    the position of [current_step], first match or none; steps at or before
    that position are excluded even if they match the type. A step that is
    not in the sequence has no position, and nothing follows it. *)
Definition get_next_step (protocol : t) (current_step : ElnEntryStep)
    (data_type_name' : string) : option ElnEntryStep :=
  match position current_step (steps protocol) with
  | Some i => List.find (has_type data_type_name') (drop (S i) (steps protocol))
  | None => None
  end.

End ElnExperimentProtocol.

(** *** Forms *)

Inductive FieldType := BOOLEAN | STRING.

Record FieldDefinition := mkFieldDefinition {
  field_data_type_name : string;
  data_field_name : string;
  display_name : string;
  data_field_type : FieldType;
  required : bool;
  editable : bool;
  default_value : PyVal;
  max_length : option Z
}.

(** Modelled from the spec: the field classes belong to the client library.
    Section 3: a field has a name, a semantic type, constraints (required,
    editable, max-length) and a default value; section 8: a field is optional
    unless the handler makes it required. *)
Definition VeloxBooleanFieldDefinition (data_type_name' data_field_name' display_name' : string)
    (default_value' : bool) : FieldDefinition :=
  mkFieldDefinition data_type_name' data_field_name' display_name' BOOLEAN
    false false (VBool default_value') None.

Definition VeloxStringFieldDefinition (data_type_name' data_field_name' display_name' : string)
    (max_length' : Z) : FieldDefinition :=
  mkFieldDefinition data_type_name' data_field_name' display_name' STRING
    false false VNone (Some max_length').

(** [field.required = b] *)
Definition set_required (b : bool) (f : FieldDefinition) : FieldDefinition :=
  mkFieldDefinition (field_data_type_name f) (data_field_name f) (display_name f)
    (data_field_type f) b (editable f) (default_value f) (max_length f).

(** [field.editable = b] *)
Definition set_editable (b : bool) (f : FieldDefinition) : FieldDefinition :=
  mkFieldDefinition (field_data_type_name f) (data_field_name f) (display_name f)
    (data_field_type f) (required f) b (default_value f) (max_length f).

Record TemporaryDataType := mkTemporaryDataType {
  temporary_data_type_name : string;
  field_definition_list : list FieldDefinition
}.

Module FormBuilder.

Record t := mk { data_type_name : string; field_def_list : list FieldDefinition }.

(** Modelled from the spec: [FormBuilder] belongs to the client library.
    Section 3: a form is an ordered list of field definitions; [add_field]
    appends. The name given to the data type of a new form is a constant of
    the library, taken as a parameter. *)
Definition new (default_name : string) : t := mk default_name [].

Definition get_data_type_name (b : t) : string := data_type_name b.

Definition add_field (b : t) (f : FieldDefinition) : t :=
  mk (data_type_name b) (field_def_list b ++ [f]).

Definition get_temporary_data_type (b : t) : TemporaryDataType :=
  mkTemporaryDataType (data_type_name b) (field_def_list b).

End FormBuilder.

(** The request to show a form: title, prompt and the form itself. *)
Record FormEntryDialogRequest := mkFormEntryDialogRequest {
  title : string;
  message : string;
  data_type_def : TemporaryDataType
}.

(** The answer of the user to a form. *)
Record FormEntryDialogResult := mkFormEntryDialogResult {
  user_cancelled : bool;
  user_response_map : gmap string PyVal
}.

(** *** Context and result of one invocation *)

Module SapioWebhookContext.

Record t := mk {
  user : SapioUser;
  client_callback_result : option FormEntryDialogResult;
  data_record : option DataRecord;
  experiment_entry_list : option (list ExperimentEntry);
  eln_experiment : option ElnExperiment;
  active_protocol : option ElnExperimentProtocol.t
}.

End SapioWebhookContext.

Module SapioWebhookResult.

Record t := mk {
  passed : bool;
  display_text : option string;
  client_callback_request : option FormEntryDialogRequest
}.

End SapioWebhookResult.

(** [SapioWebhookResult(passed, display_text=..., client_callback_request=...)] *)
Definition SapioWebhookResult (passed : bool) (display_text : option string)
    (client_callback_request : option FormEntryDialogRequest) : SapioWebhookResult.t :=
  SapioWebhookResult.mk passed display_text client_callback_request.

(** ** The platform behind the library *)

(** The calls the handlers make to the platform through the managers and the
    step factory of the library. Each one may change the platform and may
    fail; none of them is under the control of the handlers. *)
Class Sapio (W : Type) := {
  form_data_type_name : string;
  data_record_str : DataRecord → string;
  date_today : W → string;
  get_data_records_for_entry : SapioUser → Z → Z → Run W (list DataRecord);
  add_data_record : SapioUser → string → Run W DataRecord;
  commit_data_records : SapioUser → list DataRecord → Run W unit;
  add_data_records_with_data :
    SapioUser → string → list (gmap string PyVal) → Run W (list DataRecord);
  add_records_to_table_entry : SapioUser → Z → Z → list DataRecord → Run W unit;
  get_accession_with_config_list : SapioUser → string → string → Z → Run W (list string);
  create_form_step :
    option ElnExperimentProtocol.t → string → string → DataRecord → Run W ElnEntryStep;
  create_table_step :
    option ElnExperimentProtocol.t → string → string → Run W ElnEntryStep;
  create_text_entry : option ElnExperimentProtocol.t → string → Run W ElnEntryStep;
  create_bar_chart_step :
    option ElnExperimentProtocol.t → ElnEntryStep → string → string → string →
    Run W ElnEntryStep
}.

(** ** The handlers *)

Section Handlers.

Context {W : Type} `{Sapio W}.

Import ElnExperimentProtocol.

Local Abbreviation Handler := (SapioWebhookContext.t → Run (State W) SapioWebhookResult.t).

(** Prints "Hello World" in the python console whenever the webhook handler
    is invoked. *)
Definition HelloWorldWebhookHandler_run : Handler := λ context,
  print "Hello World!";;
  mret (SapioWebhookResult true None None).

(** Ask user some questions, get response back. *)
Definition UserFeedbackHandler_run : Handler := λ context,
  match SapioWebhookContext.client_callback_result context with
  | Some form_result =>
      (* Round 2: the user has answered the feedback form. *)
      if negb (user_cancelled form_result) then
        let response_map := user_response_map form_result in
        let feeling := dict_get response_map "Feeling" in
        let comments := dict_get response_map "Comments" in
        let msg :=
          if truthy feeling
          then "User felt very good! Nothing to do here..."
          else "=_= User didn't feel very good. The comment left was: "
                 +:+ py_str comments in
        print msg;;
        mret (SapioWebhookResult true (Some msg) None)
      else
        print "Cancelled.";;
        mret (SapioWebhookResult true (Some "You have Cancelled!") None)
  | None =>
      (* Round 1: tell the platform to display a form. *)
      let form_builder := FormBuilder.new form_data_type_name in
      let feeling_field :=
        VeloxBooleanFieldDefinition (FormBuilder.get_data_type_name form_builder)
          "Feeling" "Are you feeling well?" false in
      let feeling_field := set_required true feeling_field in
      let feeling_field := set_editable true feeling_field in
      let form_builder := FormBuilder.add_field form_builder feeling_field in
      let comments_field :=
        VeloxStringFieldDefinition (FormBuilder.get_data_type_name form_builder)
          "Comments" "Additional Comments" 2000 in
      let comments_field := set_editable true comments_field in
      let form_builder := FormBuilder.add_field form_builder comments_field in
      let temp_dt := FormBuilder.get_temporary_data_type form_builder in
      let request :=
        mkFormEntryDialogRequest "Feedback" "Please provide us with some feedback!"
          temp_dt in
      mret (SapioWebhookResult true None (Some request))
  end.

(** When a new "Goo" data type record is created, run this rule. *)
Definition NewGooOnSaveRuleHandler_run : Handler := λ context,
  print ("New Goo '" +:+
         from_option data_record_str "None" (SapioWebhookContext.data_record context));;
  mret (SapioWebhookResult true (Some "New Goo!") None).

(** The entry and notebook that triggered the rule will be on the context. *)
Definition ExperimentRuleHandler_run : Handler := λ context,
  entries ← iterable (SapioWebhookContext.experiment_entry_list context);
  print ("Experiment Entries of Rule: " +:+ join "," (entry_name <$> entries));;
  experiment ← attr (SapioWebhookContext.eln_experiment context);
  print ("Notebook Experiment of Rule: " +:+ notebook_experiment_name experiment);;
  entry ← first_item entries;
  records ← remote (get_data_records_for_entry (SapioWebhookContext.user context)
                      (notebook_experiment_id experiment) (entry_id entry));
  print ("Record Values were: " +:+
         join "," ((λ record, py_str (get_field_value record "NewField")) <$> records));;
  mret (SapioWebhookResult true None None).

(** Find the source sample table in the notebook experiment. Count how many
    samples there are. Then, see if there are aliquots. If there are aliquots,
    print aliquot/sample ratio. If there are no aliquot table or sample table,
    display a text to user saying so. *)
Definition ElnSampleAliquotRatioCountHandler_run : Handler := λ context,
  active_protocol ← attr (SapioWebhookContext.active_protocol context);
  match get_first_step_of_type active_protocol "Sample" with
  | None => mret (SapioWebhookResult true (Some "There are no source sample table.") None)
  | Some sample_step =>
      let source_sample_records := get_records sample_step in
      let source_sample_record_count := Z.of_nat (length source_sample_records) in
      (* The next sample table after the source sample table: excludes the
         sample table and everything before. *)
      match get_next_step active_protocol sample_step "Sample" with
      | None =>
          mret (SapioWebhookResult true (Some "There are no aliquot sample table.") None)
      | Some aliquot_step =>
          let aliquot_sample_record_count :=
            Z.of_nat (length (get_records aliquot_step)) in
          ratio ← of_sum (PyFloat.int_true_div aliquot_sample_record_count
                            source_sample_record_count);
          mret (SapioWebhookResult true
                  (Some ("The aliquot to sample ratio is: " +:+ PyFloat.repr ratio))
                  None)
      end
  end.

(** How to use the protocol/step interfaces to create new steps in ELN. *)
Definition ElnStepCreationHandler_run : Handler := λ context,
  let active_protocol := SapioWebhookContext.active_protocol context in
  let user := SapioWebhookContext.user context in
  request_record ← remote (add_data_record user "Request");
  today ← remote (λ w, Returned (date_today w) w);
  let request_record :=
    set_field_value request_record "RequestId"
      (VStr ("Python Webhook Demo Request " +:+ today)) in
  remote (commit_data_records user [request_record]);;
  remote (create_form_step active_protocol "Request Data" "Request" request_record);;
  remote (create_table_step active_protocol "Samples" "Sample");;
  remote (create_text_entry active_protocol "Hello World!");;
  mret (SapioWebhookResult true None None).

(** Create a sample step if not exists, and then accession 8 blood samples. *)
Definition ElnSampleCreationHandler_run : Handler := λ context,
  active_protocol ← attr (SapioWebhookContext.active_protocol context);
  let user := SapioWebhookContext.user context in
  sample_step ←
    match get_first_step_of_type active_protocol "Sample" with
    | Some sample_step => mret sample_step
    | None => remote (create_table_step (Some active_protocol) "Samples" "Sample")
    end;
  let num_samples := 8 in
  sample_id_list ←
    remote (get_accession_with_config_list user "Sample" "SampleId" num_samples);
  let sample_fields :=
    foldl (λ sample_fields sample_id,
             sample_fields ++
               [ {[ "ExemplarSampleType" := VStr "Blood";
                    "SampleId" := VStr sample_id ]} ])
      [] sample_id_list in
  sample_records ← remote (add_data_records_with_data user "Sample" sample_fields);
  remote (add_records_to_table_entry user
            (notebook_experiment_id (eln_experiment active_protocol))
            (entry_id (eln_entry sample_step)) sample_records);;
  mret (SapioWebhookResult true None None).

(** Provide a bar chart for a sample table where x-axis is sample ID and
    y-axis is concentration. *)
Definition BarChartDashboardCreationHandler_run : Handler := λ context,
  active_protocol ← attr (SapioWebhookContext.active_protocol context);
  match get_first_step_of_type active_protocol "Sample" with
  | None =>
      mret (SapioWebhookResult true
              (Some "There are no sample step. Create it first.") None)
  | Some sample_step =>
      remote (create_bar_chart_step (Some active_protocol) sample_step
                "Concentration vs Sample ID" "SampleId" "Concentration");;
      mret (SapioWebhookResult true None None)
  end.

End Handlers.

(** ** Handler classes and the route table *)

(** The subclasses of [AbstractWebhookHandler] defined by the server. *)
Inductive HandlerClass :=
| HelloWorldWebhookHandler
| UserFeedbackHandler
| NewGooOnSaveRuleHandler
| ExperimentRuleHandler
| ElnSampleAliquotRatioCountHandler
| ElnStepCreationHandler
| ElnSampleCreationHandler
| BarChartDashboardCreationHandler.

(** [handler_class().run(context)]: a fresh instance has no fields, so the
    class alone selects the behaviour. *)
Definition run {W : Type} `{Sapio W} (handler : HandlerClass)
  : SapioWebhookContext.t → Run (State W) SapioWebhookResult.t :=
  match handler with
  | HelloWorldWebhookHandler => HelloWorldWebhookHandler_run
  | UserFeedbackHandler => UserFeedbackHandler_run
  | NewGooOnSaveRuleHandler => NewGooOnSaveRuleHandler_run
  | ExperimentRuleHandler => ExperimentRuleHandler_run
  | ElnSampleAliquotRatioCountHandler => ElnSampleAliquotRatioCountHandler_run
  | ElnStepCreationHandler => ElnStepCreationHandler_run
  | ElnSampleCreationHandler => ElnSampleCreationHandler_run
  | BarChartDashboardCreationHandler => BarChartDashboardCreationHandler_run
  end.

Module WebhookConfiguration.

Inductive RouteError := DuplicatePathError | UnknownRouteError.

Record t := mk {
  verify_sapio_cert : bool;
  debug : bool;
  routes : gmap string HandlerClass
}.

(** [WebhookConfiguration(verify_sapio_cert=..., debug=...)] *)
Definition new (verify_sapio_cert' debug' : bool) : t :=
  mk verify_sapio_cert' debug' ∅.

(** Modelled from the spec: [WebhookConfiguration.register] belongs to the
    client library, which is not among the sources. Section 4.1:
    [register(path, handlerType)] fails with [DuplicatePathError] if the path
    is already bound. *)
Definition register (path : string) (handler : HandlerClass) (config : t)
  : RouteError + t :=
  match routes config !! path with
  | Some _ => inl DuplicatePathError
  | None =>
      inr (mk (verify_sapio_cert config) (debug config)
             (<[path := handler]> (routes config)))
  end.

(** Modelled from the spec: the dispatcher belongs to the client library.
    Section 4.1: [resolve(path)] gives the handler type and fails with
    [UnknownRouteError] if the path is absent. *)
Definition resolve (config : t) (path : string) : RouteError + HandlerClass :=
  match routes config !! path with
  | Some handler => inr handler
  | None => inl UnknownRouteError
  end.

(** A sequence of [register] calls, stopped by the first one that fails. *)
Fixpoint register_all (table : list (string * HandlerClass)) (config : t)
  : RouteError + t :=
  match table with
  | [] => inr config
  | (path, handler) :: rest =>
      match register path handler config with
      | inr config' => register_all rest config'
      | inl e => inl e
      end
  end.

End WebhookConfiguration.

(** The registration points of the server, in the order of the calls. *)
Definition registrations : list (string * HandlerClass) :=
  [ ("/hello_world", HelloWorldWebhookHandler);
    ("/feedback_form", UserFeedbackHandler);
    ("/new_goo", NewGooOnSaveRuleHandler);
    ("/eln/rule_test", ExperimentRuleHandler);
    ("/eln/sample_aliquot_count", ElnSampleAliquotRatioCountHandler);
    ("/eln/create_new_steps", ElnStepCreationHandler);
    ("/eln/sample_creation", ElnSampleCreationHandler);
    ("/eln/bar_chart_creation", BarChartDashboardCreationHandler) ].

Definition config : WebhookConfiguration.RouteError + WebhookConfiguration.t :=
  WebhookConfiguration.register_all registrations
    (WebhookConfiguration.new false true).

(** ** Vocabulary of the properties *)

Section Vocabulary.

Import ElnExperimentProtocol.

(** The entries of the steps of an experiment are pairwise distinct. *)
Definition distinct_entries (l : list ElnEntryStep) : Prop :=
  NoDup ((λ s, entry_id (eln_entry s)) <$> l).

(** [s], at place [i], is the first step of [l] with type tag [T]. *)
Definition first_of_type (T : string) (l : list ElnEntryStep) (i : nat)
    (s : ElnEntryStep) : Prop :=
  l !! i = Some s ∧ has_type T s = true ∧
  ∀ j s', (j < i)%nat → l !! j = Some s' → has_type T s' = false.

(** [s], at place [k], is the first step of [l] with type tag [T] strictly
    after place [i]. *)
Definition next_of_type (T : string) (l : list ElnEntryStep) (i k : nat)
    (s : ElnEntryStep) : Prop :=
  (i < k)%nat ∧ l !! k = Some s ∧ has_type T s = true ∧
  ∀ j s', (i < j < k)%nat → l !! j = Some s' → has_type T s' = false.

(** No step of [l] strictly after place [i] has type tag [T]. *)
Definition none_of_type_after (T : string) (l : list ElnEntryStep) (i : nat) : Prop :=
  ∀ j s', (i < j)%nat → l !! j = Some s' → has_type T s' = false.

(** The text shown by the ratio handler is this prefix and a numeral. *)
Definition ratio_prefix : string := "The aliquot to sample ratio is: ".

(** The numeral of [text] is a decimal whose value is the rational [q]. *)
Definition encodes_exactly (text : string) (q : Q) : Prop :=
  ∃ numeral v,
    text = ratio_prefix +:+ numeral ∧ Decimal.value numeral = Some v ∧ (v == q)%Q.

(** [len] of a list is at most [sys.maxsize]. *)
Definition sys_maxsize : Z := 2 ^ 63 - 1.

(** The paths of a table can all be registered on top of [config]: they are
    pairwise distinct and none of them is bound yet. *)
Definition registrable (table : list (string * HandlerClass))
    (config : WebhookConfiguration.t) : Prop :=
  NoDup table.*1 ∧
  ∀ path, path ∈ table.*1 → WebhookConfiguration.routes config !! path = None.

(** The same request carrying another answer of the user. *)
Definition answered (context : SapioWebhookContext.t) (answer : FormEntryDialogResult)
  : SapioWebhookContext.t :=
  SapioWebhookContext.mk (SapioWebhookContext.user context) (Some answer)
    (SapioWebhookContext.data_record context)
    (SapioWebhookContext.experiment_entry_list context)
    (SapioWebhookContext.eln_experiment context)
    (SapioWebhookContext.active_protocol context).

End Vocabulary.

(** ** A platform for the examples *)

(** A platform that is out of reach: every call to it fails. The handlers
    that reach a result on it do so without its help. *)
Definition unreachable {A : Type} : Run unit A :=
  λ _, Raised (SapioServerException "connection refused").

Global Instance offline : Sapio unit := {|
  form_data_type_name := "Default";
  data_record_str := λ r, record_data_type_name r +:+ " " +:+ pretty (record_id r);
  date_today := λ _, "2023-01-01";
  get_data_records_for_entry := λ _ _ _, unreachable;
  add_data_record := λ _ _, unreachable;
  commit_data_records := λ _ _, unreachable;
  add_data_records_with_data := λ _ _ _, unreachable;
  add_records_to_table_entry := λ _ _ _ _, unreachable;
  get_accession_with_config_list := λ _ _ _ _, unreachable;
  create_form_step := λ _ _ _ _, unreachable;
  create_table_step := λ _ _ _, unreachable;
  create_text_entry := λ _ _, unreachable;
  create_bar_chart_step := λ _ _ _ _ _, unreachable
|}.

Definition console : State unit := mkState [] tt.

Definition blank_record (data_type : string) (id : Z) : DataRecord :=
  mkDataRecord data_type id ∅.

(** A table step of the given entry id, name and type with [n] records. *)
Definition table_step (id : Z) (name data_type : string) (n : nat) : ElnEntryStep :=
  mkElnEntryStep (mkExperimentEntry id name data_type)
    ((λ k, blank_record data_type (Z.of_nat k)) <$> seq 0 n).

Definition experiment_of (l : list ElnEntryStep) : ElnExperimentProtocol.t :=
  ElnExperimentProtocol.mk (mkElnExperiment 1 "Experiment") l.

(** The context of a request on an experiment, with nothing else set. *)
Definition context_of (l : list ElnEntryStep) : SapioWebhookContext.t :=
  SapioWebhookContext.mk (mkSapioUser "tester") None None None
    (Some (mkElnExperiment 1 "Experiment")) (Some (experiment_of l)).

(** The context of a request that carries the answer to a form. *)
Definition context_answering (answer : FormEntryDialogResult) : SapioWebhookContext.t :=
  SapioWebhookContext.mk (mkSapioUser "tester") (Some answer) None None None None.

(** The empty context. *)
Definition empty_context : SapioWebhookContext.t :=
  SapioWebhookContext.mk (mkSapioUser "tester") None None None None None.

(** Eight samples and four aliquots, with other steps around them. *)
Definition halved_experiment : list ElnEntryStep :=
  [ table_step 5 "Request Data" "Request" 1;
    table_step 1 "Samples" "Sample" 8;
    table_step 7 "Notes" "Text" 0;
    table_step 2 "Aliquots" "Sample" 4 ].

(** Three samples and one aliquot. *)
Definition thirds_experiment : list ElnEntryStep :=
  [ table_step 1 "Samples" "Sample" 3; table_step 2 "Aliquots" "Sample" 1 ].

(** An empty sample table followed by four aliquots. *)
Definition empty_source_experiment : list ElnEntryStep :=
  [ table_step 1 "Samples" "Sample" 0; table_step 2 "Aliquots" "Sample" 4 ].

(** A sample table and no aliquot table. *)
Definition source_only_experiment : list ElnEntryStep :=
  [ table_step 5 "Request Data" "Request" 1; table_step 1 "Samples" "Sample" 8 ].

(** A platform that serves every call. Its state counts the calls served,
    and a new record or step is numbered by the call that made it. *)
Definition served {A : Type} (a : A) : Run nat A := λ n, Returned a (S n).

Global Instance bench : Sapio nat := {|
  form_data_type_name := "Default";
  data_record_str := λ r, record_data_type_name r +:+ " " +:+ pretty (record_id r);
  date_today := λ _, "2023-01-01";
  get_data_records_for_entry := λ _ _ entry,
    served [ mkDataRecord "Sample" 1 {[ "NewField" := VInt entry ]};
             mkDataRecord "Sample" 2 ∅ ];
  add_data_record := λ _ data_type n,
    Returned (mkDataRecord data_type (Z.of_nat n) ∅) (S n);
  commit_data_records := λ _ _, served tt;
  add_data_records_with_data := λ _ data_type l,
    served (imap (λ i f, mkDataRecord data_type (Z.of_nat i) f) l);
  add_records_to_table_entry := λ _ _ _ _, served tt;
  get_accession_with_config_list := λ _ _ _ count,
    served ((λ k, "S-" +:+ pretty k) <$> seq 0 (Z.to_nat count));
  create_form_step := λ _ name data_type record n,
    Returned (mkElnEntryStep (mkExperimentEntry (Z.of_nat n) name data_type) [record]) (S n);
  create_table_step := λ _ name data_type n,
    Returned (mkElnEntryStep (mkExperimentEntry (Z.of_nat n) name data_type) []) (S n);
  create_text_entry := λ _ text n,
    Returned (mkElnEntryStep (mkExperimentEntry (Z.of_nat n) text "Text") []) (S n);
  create_bar_chart_step := λ _ step name x y n,
    Returned (mkElnEntryStep (mkExperimentEntry (Z.of_nat n) name "Chart") []) (S n)
|}.

(** The serving platform with its record store set read-only: a commit is
    refused. *)
Definition bench_read_only : Sapio nat := {|
  form_data_type_name := @form_data_type_name nat bench;
  data_record_str := @data_record_str nat bench;
  date_today := @date_today nat bench;
  get_data_records_for_entry := @get_data_records_for_entry nat bench;
  add_data_record := @add_data_record nat bench;
  commit_data_records := λ _ _ _, Raised (SapioServerException "read only");
  add_data_records_with_data := @add_data_records_with_data nat bench;
  add_records_to_table_entry := @add_records_to_table_entry nat bench;
  get_accession_with_config_list := @get_accession_with_config_list nat bench;
  create_form_step := @create_form_step nat bench;
  create_table_step := @create_table_step nat bench;
  create_text_entry := @create_text_entry nat bench;
  create_bar_chart_step := @create_bar_chart_step nat bench
|}.

(** The console and the platform before the first call. *)
Definition bench_start : State nat := mkState [] O.

(** The context of a rule fired on entries of an experiment. *)
Definition context_of_rule (entries : list ExperimentEntry) : SapioWebhookContext.t :=
  SapioWebhookContext.mk (mkSapioUser "tester") None None (Some entries)
    (Some (mkElnExperiment 1 "Experiment")) None.

(** The field values of one accessioned blood sample. *)
Definition blood_sample (sample_id : string) : gmap string PyVal :=
  {[ "ExemplarSampleType" := VStr "Blood"; "SampleId" := VStr sample_id ]}.

(** The two messages of a completed feedback round. *)
Definition felt_good : string := "User felt very good! Nothing to do here...".

Definition felt_bad (comments : PyVal) : string :=
  "=_= User didn't feel very good. The comment left was: " +:+ py_str comments.

(** The handlers that read the active protocol of the context. *)
Definition reads_protocol (handler : HandlerClass) : bool :=
  match handler with
  | ElnSampleAliquotRatioCountHandler
  | ElnSampleCreationHandler
  | BarChartDashboardCreationHandler => true
  | _ => false
  end.


(** ** Navigation over the steps of an experiment *)

Section Navigation.

Import ElnExperimentProtocol.

Implicit Types (l : list ElnEntryStep) (s step : ElnEntryStep) (T : string).

Lemma find_first_of_type T l s :
  List.find (has_type T) l = Some s → ∃ i, first_of_type T l i s.
Proof.
  induction l as [|a l IH]; simpl; [done|].
  destruct (has_type T a) eqn:Ha.
  - intros [= ->]. exists O. repeat split; [done|]. intros j s' Hj. lia.
  - intros Hfind. destruct (IH Hfind) as (i & Hi & Hs & Hbefore).
    exists (S i). repeat split; [done..|].
    intros [|j] s' Hj; simpl; [by intros [= <-]|].
    apply Hbefore. lia.
Qed.

Lemma find_none_of_type T l :
  List.find (has_type T) l = None → ∀ j s, l !! j = Some s → has_type T s = false.
Proof.
  induction l as [|a l IH]; simpl; [by intros _ []|].
  destruct (has_type T a) eqn:Ha; [done|].
  intros Hfind [|j] s; simpl; [by intros [= <-]|]. by apply IH.
Qed.

Lemma first_of_type_find T l i s :
  first_of_type T l i s → List.find (has_type T) l = Some s.
Proof.
  revert i. induction l as [|a l IH]; intros i (Hi & Hs & Hbefore); [done|].
  destruct i as [|i]; simpl in *.
  - injection Hi as ->. by rewrite Hs.
  - rewrite (Hbefore O a) by (done || lia).
    apply (IH i). repeat split; [done..|].
    intros j s' Hj Hl. apply (Hbefore (S j)); [lia|done].
Qed.

Lemma none_of_type_find T l :
  (∀ j s, l !! j = Some s → has_type T s = false) → List.find (has_type T) l = None.
Proof.
  induction l as [|a l IH]; intros Hnone; simpl; [done|].
  rewrite (Hnone O a) by done. apply IH. intros j s. apply (Hnone (S j)).
Qed.

Lemma position_lookup step l i :
  position step l = Some i →
  ∃ s, l !! i = Some s ∧ same_step s step = true.
Proof.
  revert i. induction l as [|a l IH]; intros i; simpl; [done|].
  destruct (same_step a step) eqn:Ha.
  - intros [= <-]. by exists a.
  - destruct (position step l) as [i'|]; simpl; [|done].
    intros [= <-]. by apply IH.
Qed.

Lemma position_elem_of step l : step ∈ l → is_Some (position step l).
Proof.
  induction 1 as [a l|a b l Hin IH]; simpl.
  - unfold same_step. rewrite Z.eqb_refl. eauto.
  - destruct (same_step b a); [eauto|]. destruct IH as [i ->]. eauto.
Qed.

Lemma position_distinct step l i :
  distinct_entries l → l !! i = Some step → position step l = Some i.
Proof.
  unfold distinct_entries. revert i.
  induction l as [|a l IH]; intros i Hdistinct Hi; [done|].
  rewrite fmap_cons in Hdistinct. apply NoDup_cons in Hdistinct as [Ha Hl].
  destruct i as [|i]; simpl in *.
  - injection Hi as ->. unfold same_step. by rewrite Z.eqb_refl.
  - destruct (same_step a step) eqn:Hsame.
    + exfalso. apply Ha. unfold same_step in Hsame. apply Z.eqb_eq in Hsame.
      rewrite Hsame. apply list_elem_of_fmap. exists step. split; [done|].
      by eapply list_elem_of_lookup_2.
    + by rewrite (IH i).
Qed.

Lemma get_next_step_position protocol step T i :
  position step (steps protocol) = Some i →
  match get_next_step protocol step T with
  | Some s => ∃ k, next_of_type T (steps protocol) i k s
  | None => none_of_type_after T (steps protocol) i
  end.
Proof.
  intros Hpos. unfold get_next_step. rewrite Hpos.
  destruct (List.find _ _) as [s|] eqn:Hfind.
  - apply find_first_of_type in Hfind as (j & Hj & Hs & Hbefore).
    rewrite lookup_drop in Hj.
    exists (S i + j)%nat. repeat split; [lia|done..|].
    intros j' s' [Hlo Hhi] Hl. apply (Hbefore (j' - S i)%nat); [lia|].
    rewrite lookup_drop. by replace (S i + (j' - S i))%nat with j' by lia.
  - intros j s' Hj Hl. apply (find_none_of_type _ _ Hfind (j - S i)%nat).
    rewrite lookup_drop. by replace (S i + (j - S i))%nat with j by lia.
Qed.

Lemma next_of_type_get_next_step protocol step T i k s :
  position step (steps protocol) = Some i →
  next_of_type T (steps protocol) i k s →
  get_next_step protocol step T = Some s.
Proof.
  intros Hpos (Hik & Hk & Hs & Hbetween). unfold get_next_step. rewrite Hpos.
  apply (first_of_type_find _ _ (k - S i)%nat). repeat split; [|done|].
  - rewrite lookup_drop. by replace (S i + (k - S i))%nat with k by lia.
  - intros j s' Hj. rewrite lookup_drop. apply Hbetween. lia.
Qed.

Lemma none_after_get_next_step protocol step T i :
  position step (steps protocol) = Some i →
  none_of_type_after T (steps protocol) i →
  get_next_step protocol step T = None.
Proof.
  intros Hpos Hnone. unfold get_next_step. rewrite Hpos.
  apply none_of_type_find. intros j s. rewrite lookup_drop. apply Hnone. lia.
Qed.

(** C2. In a sequence of steps with pairwise distinct entries,
    [get_next_step] from an anchor step gives the first step of the wanted
    type strictly after the place of the anchor, never the anchor itself nor
    a step at or before its place, and gives nothing exactly when no step
    after the anchor has that type. *)
Theorem get_next_step_strictly_after protocol anchor T i :
  distinct_entries (steps protocol) →
  steps protocol !! i = Some anchor →
  match get_next_step protocol anchor T with
  | Some s =>
      (∃ k, next_of_type T (steps protocol) i k s) ∧
      s ≠ anchor ∧
      ∀ j, (j ≤ i)%nat → steps protocol !! j ≠ Some s
  | None => none_of_type_after T (steps protocol) i
  end.
Proof.
  intros Hdistinct Hanchor.
  pose proof (position_distinct _ _ _ Hdistinct Hanchor) as Hpos.
  pose proof (get_next_step_position protocol anchor T i Hpos) as Hnext.
  destruct (get_next_step protocol anchor T) as [s|]; [|done].
  destruct Hnext as (k & Hik & Hk & Hs & Hbetween).
  assert (∀ j, (j ≤ i)%nat → steps protocol !! j ≠ Some s) as Hnot_before.
  { intros j Hj Hjs.
    pose proof (position_distinct _ _ _ Hdistinct Hjs) as Hpj.
    pose proof (position_distinct _ _ _ Hdistinct Hk) as Hpk.
    rewrite Hpj in Hpk. injection Hpk as ->. lia. }
  split; [by exists k; repeat split|]. split; [|done].
  intros ->. by apply (Hnot_before i).
Qed.

End Navigation.

(** ** Division of lengths *)

Section Division.

Import PyFloat.

Lemma ratio_log2_le a b : 0 < b → ratio_log2 a b ≤ Z.log2 a.
Proof.
  intros Hb. unfold ratio_log2.
  pose proof (Z.log2_nonneg b).
  repeat case_match; lia.
Qed.

Lemma round_ratio_exponent a b :
  0 ≤ a < 2 ^ 1023 → 0 < b → (round_ratio a b).2 ≤ emax.
Proof.
  intros [Ha Ha'] Hb. unfold round_ratio, emax.
  destruct (a =? 0) eqn:Hzero; simpl; [lia|].
  apply Z.eqb_neq in Hzero.
  assert (Z.log2 a < 1023) by (apply Z.log2_lt_pow2; lia).
  pose proof (ratio_log2_le a b Hb). unfold emin.
  set (e := Z.max (ratio_log2 a b - 52) (-1074)).
  assert (e ≤ 970) by (unfold e; lia).
  clearbody e. case_match; simpl; lia.
Qed.

Lemma int_true_div_lengths (M N : nat) :
  Z.of_nat M ≤ sys_maxsize → (0 < N)%nat →
  ∃ ratio, int_true_div (Z.of_nat M) (Z.of_nat N) = inr ratio ∧ sign ratio = false.
Proof.
  intros HM HN. unfold int_true_div.
  assert ((Z.of_nat N =? 0) = false) as -> by (apply Z.eqb_neq; lia).
  rewrite !Z.abs_eq by lia.
  pose proof (round_ratio_exponent (Z.of_nat M) (Z.of_nat N)) as He.
  destruct (round_ratio _ _) as [m e]. simpl in He.
  assert ((emax <? e) = false) as ->.
  { apply Z.ltb_ge, He; [|lia]. unfold sys_maxsize in HM. split; [lia|].
    eapply Z.le_lt_trans; [exact HM|]. reflexivity. }
  eexists. split; [reflexivity|]. simpl.
  assert ((Z.of_nat M <? 0) = false) as -> by (apply Z.ltb_ge; lia).
  assert ((Z.of_nat N <? 0) = false) as -> by (apply Z.ltb_ge; lia).
  done.
Qed.

Lemma int_true_div_zero a : int_true_div a 0 = inl ZeroDivisionError.
Proof. reflexivity. Qed.

(** The rounded quotient is within half a unit in the last place of the
    quotient. *)
Lemma round_ratio_nearest a b :
  0 < a → 0 < b →
  let '(m, e) := round_ratio a b in
  2 * Z.abs (m * 2 ^ Z.max e 0 * b - a * 2 ^ Z.max (- e) 0) ≤ b * 2 ^ Z.max e 0.
Proof.
  intros Ha Hb. unfold round_ratio.
  assert ((a =? 0) = false) as -> by (apply Z.eqb_neq; lia).
  set (e := Z.max (ratio_log2 a b - 52) emin). clearbody e.
  set (num := a * 2 ^ Z.max (- e) 0).
  set (den := b * 2 ^ Z.max e 0).
  assert (0 < 2 ^ Z.max e 0) as Hp by (apply Z.pow_pos_nonneg; lia).
  assert (0 < den) as Hden by (unfold den; lia).
  pose proof (Z.div_mod num den ltac:(lia)) as Hdiv.
  pose proof (Z.mod_pos_bound num den Hden) as Hmod.
  set (q := num / den) in *. set (r := num mod den) in *.
  set (q' := if (den <? 2 * r) || ((den =? 2 * r) && Z.odd q) then q + 1 else q).
  assert (2 * Z.abs (q' * den - num) ≤ den) as Hnear.
  { unfold q'. destruct (den <? 2 * r) eqn:Hlt; simpl.
    - apply Z.ltb_lt in Hlt. lia.
    - apply Z.ltb_ge in Hlt. destruct (den =? 2 * r) eqn:Heq; simpl.
      + apply Z.eqb_eq in Heq. destruct (Z.odd q); lia.
      + lia. }
  clearbody q'. destruct (q' =? 2 ^ 53) eqn:Hnorm.
  - apply Z.eqb_eq in Hnorm. subst q'.
    destruct (Z.le_gt_cases 0 e) as [He|He].
    + rewrite (Z.max_l (e + 1)), (Z.max_r (- (e + 1))) by lia.
      unfold num, den in *. rewrite (Z.max_l e), (Z.max_r (- e)) in * by lia.
      rewrite Z.pow_add_r by lia. change (2 ^ 53) with (2 * 2 ^ 52) in Hnear.
      change (2 ^ 1) with 2. lia.
    + rewrite (Z.max_r (e + 1)), (Z.max_l (- (e + 1))) by lia.
      unfold num, den in *. rewrite (Z.max_r e), (Z.max_l (- e)) in * by lia.
      replace (- e) with (- (e + 1) + 1) in Hnear by lia.
      rewrite Z.pow_add_r in Hnear by lia. change (2 ^ 1) with 2 in Hnear.
      change (2 ^ 53) with (2 * 2 ^ 52) in Hnear. rewrite Z.pow_0_r in *. lia.
  - unfold num, den in *. lia.
Qed.

Lemma Qpower_two e :
  (Qpower 2 e == inject_Z (2 ^ Z.max e 0) / inject_Z (2 ^ Z.max (- e) 0))%Q.
Proof.
  destruct (Z.le_gt_cases 0 e) as [He|He].
  - rewrite (Z.max_l e), (Z.max_r (- e)) by lia.
    rewrite Z.pow_0_r, Zpower_Qpower by lia. change (inject_Z 1) with 1%Q.
    change (inject_Z 2) with 2%Q. generalize (Qpower 2 e). intros q. field.
  - rewrite (Z.max_r e), (Z.max_l (- e)) by lia.
    rewrite Z.pow_0_r, Zpower_Qpower by lia. change (inject_Z 1) with 1%Q.
    change (inject_Z 2) with 2%Q.
    replace e with (- - e) at 1 by lia. rewrite Qpower_opp.
    assert (¬ (Qpower 2 (- e) == 0)%Q) as Hnz by (apply Qpower_not_0; discriminate).
    revert Hnz. generalize (Qpower 2 (- e)). intros q Hq. by field.
Qed.

(** The float given by the division of two lengths is within half a unit in
    the last place of their quotient. *)
Lemma int_true_div_nearest (M N : nat) ratio :
  (0 < N)%nat →
  int_true_div (Z.of_nat M) (Z.of_nat N) = inr ratio →
  (2 * Qabs (to_Q ratio - inject_Z (Z.of_nat M) / inject_Z (Z.of_nat N))
   <= Qpower 2 (expo ratio))%Q.
Proof.
  intros HN. unfold int_true_div.
  assert ((Z.of_nat N =? 0) = false) as -> by (apply Z.eqb_neq; lia).
  rewrite !Z.abs_eq by lia.
  assert ((Z.of_nat M <? 0) = false) as -> by (apply Z.ltb_ge; lia).
  assert ((Z.of_nat N <? 0) = false) as -> by (apply Z.ltb_ge; lia).
  set (a := Z.of_nat M). set (b := Z.of_nat N).
  assert (0 ≤ a) as Ha by lia. assert (0 < b) as Hb by lia. clearbody a b.
  destruct (round_ratio a b) as [m e] eqn:Hround.
  destruct (emax <? e); [done|]. intros [= <-]. unfold to_Q. cbn [sign mant expo].
  assert (2 * Z.abs (m * 2 ^ Z.max e 0 * b - a * 2 ^ Z.max (- e) 0) ≤ b * 2 ^ Z.max e 0)
    as Hnear.
  { destruct (Z.eq_dec a 0) as [->|Hnz].
    - vm_compute in Hround. injection Hround as <- <-. simpl. lia.
    - pose proof (round_ratio_nearest a b ltac:(lia) Hb) as Hnear.
      by rewrite Hround in Hnear. }
  rewrite Qpower_two.
  set (P := 2 ^ Z.max e 0) in *. set (D := 2 ^ Z.max (- e) 0) in *.
  assert (0 < P) as HP by (apply Z.pow_pos_nonneg; lia).
  assert (0 < D) as HD by (apply Z.pow_pos_nonneg; lia).
  clearbody P D.
  assert (0 < inject_Z D * inject_Z b)%Q as Hpos.
  { rewrite <- inject_Z_mult. change 0%Q with (inject_Z 0). rewrite <- Zlt_Qlt. lia. }
  apply (Qmult_le_r _ _ _ Hpos).
  rewrite <- Qmult_assoc.
  rewrite <- (Qabs_pos (inject_Z D * inject_Z b)) at 1 by (by apply Qlt_le_weak).
  rewrite <- Qabs_Qmult.
  assert ((1 * inject_Z m * (inject_Z P / inject_Z D) - inject_Z a / inject_Z b)
          * (inject_Z D * inject_Z b)
          == inject_Z (m * P * b - a * D))%Q as ->.
  { unfold Z.sub. rewrite inject_Z_plus, inject_Z_opp, !inject_Z_mult. field.
    split; intros Hz; [revert Hz; change 0%Q with (inject_Z 0) ..];
      rewrite inject_Z_injective; lia. }
  assert (inject_Z P / inject_Z D * (inject_Z D * inject_Z b)
          == inject_Z (b * P))%Q as ->.
  { rewrite inject_Z_mult. field. change 0%Q with (inject_Z 0).
    rewrite inject_Z_injective. lia. }
  change (Qabs (inject_Z (m * P * b - a * D)))
    with (inject_Z (Z.abs (m * P * b - a * D))).
  change 2%Q with (inject_Z 2). rewrite <- inject_Z_mult, <- Zle_Qle. lia.
Qed.

End Division.

(** ** The handlers *)

Ltac unfold_run :=
  unfold run, HelloWorldWebhookHandler_run, UserFeedbackHandler_run,
    NewGooOnSaveRuleHandler_run, ExperimentRuleHandler_run,
    ElnSampleAliquotRatioCountHandler_run, ElnStepCreationHandler_run,
    ElnSampleCreationHandler_run, BarChartDashboardCreationHandler_run,
    SapioWebhookResult in *;
  unfold mbind, Run_bind, attr, iterable, first_item, of_sum, print, remote in *;
  unfold mret, Run_ret, raise in *.

Ltac run_cases :=
  unfold_run; repeat (first [ case_match | progress simplify_eq/= ]).

Section HandlerProperties.

Context {W : Type} `{Sapio W}.

Import ElnExperimentProtocol.

Implicit Types (context : SapioWebhookContext.t) (st : State W).
Implicit Types (protocol : ElnExperimentProtocol.t).

(** C7. The hello-world handler returns the same outcome on any two contexts:
    a passed result with no display text and no callback request, after one
    line printed on the console. Nothing of the context is read. *)
Theorem hello_world_ignores_context context1 context2 st :
  run HelloWorldWebhookHandler context1 st = run HelloWorldWebhookHandler context2 st ∧
  run HelloWorldWebhookHandler context1 st =
    Returned (SapioWebhookResult.mk true None None)
      (mkState (stdout st ++ ["Hello World!"]) (platform st)).
Proof. split; reflexivity. Qed.

(** C3. On a context without a callback result the feedback handler returns a
    passed result that carries a form request with exactly two fields in
    order, the required boolean field Feeling and the optional string field
    Comments of maximal length 2000; it prints nothing and leaves the
    platform untouched. *)
Theorem feedback_round_one context st :
  SapioWebhookContext.client_callback_result context = None →
  ∃ request feeling comments,
    run UserFeedbackHandler context st =
      Returned (SapioWebhookResult.mk true None (Some request)) st ∧
    field_definition_list (data_type_def request) = [feeling; comments] ∧
    data_field_name feeling = "Feeling" ∧
    data_field_type feeling = BOOLEAN ∧
    required feeling = true ∧
    data_field_name comments = "Comments" ∧
    data_field_type comments = STRING ∧
    required comments = false ∧
    max_length comments = Some 2000.
Proof.
  intros Hround. unfold_run. rewrite Hround.
  eexists _, _, _. split; [reflexivity|]. simpl. repeat split.
Qed.

(** What round two answers when the user did not cancel. *)
Lemma feedback_completed context answer st :
  SapioWebhookContext.client_callback_result context = Some answer →
  user_cancelled answer = false →
  ∃ msg,
    run UserFeedbackHandler context st =
      Returned (SapioWebhookResult.mk true (Some msg) None)
        (mkState (stdout st ++ [msg]) (platform st)) ∧
    (msg = "User felt very good! Nothing to do here..." ∨
     ∃ comment,
       msg = "=_= User didn't feel very good. The comment left was: " +:+ comment).
Proof.
  intros Hanswer Hcancel. unfold_run. rewrite Hanswer, Hcancel. simpl.
  eexists. split; [reflexivity|]. destruct (truthy _); eauto.
Qed.

(** What round two answers when the user cancelled. *)
Lemma feedback_cancel_run context answer st :
  SapioWebhookContext.client_callback_result context = Some answer →
  user_cancelled answer = true →
  run UserFeedbackHandler context st =
    Returned (SapioWebhookResult.mk true (Some "You have Cancelled!") None)
      (mkState (stdout st ++ ["Cancelled."]) (platform st)).
Proof. intros Hanswer Hcancel. unfold_run. by rewrite Hanswer, Hcancel. Qed.

(** C4. When the callback result says that the user cancelled, the feedback
    handler answers with the cancellation message; the outcome is the same
    whatever the response map holds, and no completed round two ever shows
    that message. *)
Theorem feedback_cancelled context answer st :
  SapioWebhookContext.client_callback_result context = Some answer →
  user_cancelled answer = true →
  run UserFeedbackHandler context st =
    Returned (SapioWebhookResult.mk true (Some "You have Cancelled!") None)
      (mkState (stdout st ++ ["Cancelled."]) (platform st)) ∧
  (∀ responses,
     run UserFeedbackHandler (answered context (mkFormEntryDialogResult true responses)) st =
     run UserFeedbackHandler context st) ∧
  (∀ context' answer' st' result st'',
     SapioWebhookContext.client_callback_result context' = Some answer' →
     user_cancelled answer' = false →
     run UserFeedbackHandler context' st' = Returned result st'' →
     SapioWebhookResult.display_text result ≠ Some "You have Cancelled!").
Proof.
  intros Hanswer Hcancel. split; [|split].
  - by apply (feedback_cancel_run context answer).
  - intros responses.
    rewrite (feedback_cancel_run context answer) by done.
    by apply (feedback_cancel_run _ (mkFormEntryDialogResult true responses)).
  - intros context' answer' st' result st'' Hanswer' Hcancel' Hrun.
    destruct (feedback_completed context' answer' st' Hanswer' Hcancel')
      as (msg & Hmsg & Hshape).
    rewrite Hmsg in Hrun. injection Hrun as <- <-. simpl.
    destruct Hshape as [->|[comment ->]]; discriminate.
Qed.

(** C8. When the callback result is not cancelled and its response map binds
    Feeling to true, the feedback handler returns a passed result with the
    positive completion message and no callback request. *)
Theorem feedback_feeling_good context answer st :
  SapioWebhookContext.client_callback_result context = Some answer →
  user_cancelled answer = false →
  user_response_map answer !! "Feeling" = Some (VBool true) →
  run UserFeedbackHandler context st =
    Returned
      (SapioWebhookResult.mk true (Some "User felt very good! Nothing to do here...") None)
      (mkState (stdout st ++ ["User felt very good! Nothing to do here..."])
         (platform st)).
Proof.
  intros Hanswer Hcancel Hfeeling. unfold_run.
  rewrite Hanswer, Hcancel. unfold dict_get. by rewrite Hfeeling.
Qed.

(** C9. On an experiment without any Sample step the ratio handler returns a
    passed result saying that there is no source sample table; on an
    experiment whose first Sample step is followed by no other Sample step it
    returns a passed result saying that there is no aliquot sample table. No
    callback is requested, nothing is raised and nothing changes. *)
Theorem ratio_absent_steps context protocol st :
  SapioWebhookContext.active_protocol context = Some protocol →
  ((∀ j s, steps protocol !! j = Some s → has_type "Sample" s = false) →
   run ElnSampleAliquotRatioCountHandler context st =
     Returned (SapioWebhookResult.mk true (Some "There are no source sample table.") None)
       st) ∧
  (∀ i source,
     distinct_entries (steps protocol) →
     first_of_type "Sample" (steps protocol) i source →
     none_of_type_after "Sample" (steps protocol) i →
     run ElnSampleAliquotRatioCountHandler context st =
       Returned
         (SapioWebhookResult.mk true (Some "There are no aliquot sample table.") None)
         st).
Proof.
  intros Hprotocol. split.
  - intros Hnone. unfold_run. rewrite Hprotocol.
    unfold get_first_step_of_type. by rewrite (none_of_type_find _ _ Hnone).
  - intros i source Hdistinct Hfirst Hafter. unfold_run. rewrite Hprotocol.
    unfold get_first_step_of_type. rewrite (first_of_type_find _ _ _ _ Hfirst).
    destruct Hfirst as (Hi & _).
    by rewrite (none_after_get_next_step protocol source "Sample" i
                  (position_distinct _ _ _ Hdistinct Hi) Hafter).
Qed.

(** The ratio handler on an experiment with a source and an aliquot table:
    the outcome is that of the division of the two counts. *)
Lemma ratio_run context protocol st i source k aliquot :
  SapioWebhookContext.active_protocol context = Some protocol →
  distinct_entries (steps protocol) →
  first_of_type "Sample" (steps protocol) i source →
  next_of_type "Sample" (steps protocol) i k aliquot →
  run ElnSampleAliquotRatioCountHandler context st =
    match PyFloat.int_true_div (Z.of_nat (length (get_records aliquot)))
            (Z.of_nat (length (get_records source))) with
    | inr ratio =>
        Returned
          (SapioWebhookResult.mk true (Some (ratio_prefix +:+ PyFloat.repr ratio)) None)
          st
    | inl e => Raised e
    end.
Proof.
  intros Hprotocol Hdistinct Hfirst Hnext. unfold_run. rewrite Hprotocol.
  unfold get_first_step_of_type. rewrite (first_of_type_find _ _ _ _ Hfirst).
  destruct Hfirst as (Hi & _).
  rewrite (next_of_type_get_next_step protocol source "Sample" i k aliquot
             (position_distinct _ _ _ Hdistinct Hi) Hnext).
  by destruct (PyFloat.int_true_div _ _).
Qed.

(** An empty source table followed by an aliquot table: the division raises. *)
Lemma ratio_zero_source context protocol st i source k aliquot :
  SapioWebhookContext.active_protocol context = Some protocol →
  distinct_entries (steps protocol) →
  first_of_type "Sample" (steps protocol) i source →
  next_of_type "Sample" (steps protocol) i k aliquot →
  get_records source = [] →
  run ElnSampleAliquotRatioCountHandler context st = Raised ZeroDivisionError.
Proof.
  intros Hprotocol Hdistinct Hfirst Hnext Hempty.
  rewrite (ratio_run context protocol st i source k aliquot) by done.
  by rewrite Hempty.
Qed.

(** C5, as amended. When the first Sample step holds N > 0 records and the
    next Sample step after it holds M records, the ratio handler returns a
    passed result whose text is the fixed prefix followed by [str] of the
    float [M / N], a float within half a unit in the last place of the
    quotient; with N = 8 and M = 4 the text ends in 0.5, which is exactly
    4/8. *)
Theorem ratio_text context protocol st i source k aliquot (N M : nat) :
  SapioWebhookContext.active_protocol context = Some protocol →
  distinct_entries (steps protocol) →
  first_of_type "Sample" (steps protocol) i source →
  next_of_type "Sample" (steps protocol) i k aliquot →
  length (get_records source) = N →
  length (get_records aliquot) = M →
  (0 < N)%nat →
  Z.of_nat M ≤ sys_maxsize →
  ∃ ratio,
    PyFloat.int_true_div (Z.of_nat M) (Z.of_nat N) = inr ratio ∧
    run ElnSampleAliquotRatioCountHandler context st =
      Returned
        (SapioWebhookResult.mk true (Some (ratio_prefix +:+ PyFloat.repr ratio)) None)
        st ∧
    (2 * Qabs (PyFloat.to_Q ratio - inject_Z (Z.of_nat M) / inject_Z (Z.of_nat N))
     <= Qpower 2 (PyFloat.expo ratio))%Q ∧
    (N = 8%nat → M = 4%nat →
     ratio_prefix +:+ PyFloat.repr ratio = "The aliquot to sample ratio is: 0.5" ∧
     encodes_exactly (ratio_prefix +:+ PyFloat.repr ratio) (4 # 8)).
Proof.
  intros Hprotocol Hdistinct Hfirst Hnext HN HM Hpos Hmax.
  destruct (int_true_div_lengths M N Hmax Hpos) as (ratio & Hratio & _).
  exists ratio. split; [done|]. split; [|split].
  - rewrite (ratio_run context protocol st i source k aliquot) by done.
    by rewrite HN, HM, Hratio.
  - by apply int_true_div_nearest.
  - intros -> ->. vm_compute in Hratio. injection Hratio as <-.
    split; [by vm_compute|].
    exists "0.5", (5 # 10)%Q. split; [by vm_compute|]. split; [by vm_compute|].
    reflexivity.
Qed.

(** C10. Whenever the run of a handler returns, the result it returns has its
    success flag set: no handler builds a failed result. *)
Theorem handlers_always_pass (handler : HandlerClass) context st result st' :
  run handler context st = Returned result st' →
  SapioWebhookResult.passed result = true.
Proof. intros Hrun. destruct handler; run_cases; done. Qed.

End HandlerProperties.

(** ** The route table *)

Section Registry.

Import WebhookConfiguration.

Implicit Types (table : list (string * HandlerClass)) (config : WebhookConfiguration.t).

Lemma register_bound path handler config :
  is_Some (routes config !! path) →
  register path handler config = inl DuplicatePathError.
Proof. intros [bound Hbound]. unfold register. by rewrite Hbound. Qed.

Lemma register_free path handler config :
  routes config !! path = None →
  ∃ config',
    register path handler config = inr config' ∧
    routes config' = <[path := handler]> (routes config).
Proof. intros Hfree. unfold register. rewrite Hfree. eauto. Qed.

Lemma resolve_lookup config path handler :
  resolve config path = inr handler ↔ routes config !! path = Some handler.
Proof. unfold resolve. destruct (routes config !! path); naive_solver. Qed.

Lemma resolve_unknown config path :
  resolve config path = inl UnknownRouteError ↔ routes config !! path = None.
Proof. unfold resolve. destruct (routes config !! path); naive_solver. Qed.

Lemma register_all_spec table config :
  match register_all table config with
  | inr config' =>
      registrable table config ∧
      ∀ path handler,
        routes config' !! path = Some handler ↔
        (path, handler) ∈ table ∨ routes config !! path = Some handler
  | inl e => e = DuplicatePathError ∧ ¬ registrable table config
  end.
Proof.
  revert config. induction table as [|[p h] table IH]; intros config; simpl.
  - split.
    + split; [constructor|]. intros path Hpath. by apply elem_of_nil in Hpath.
    + intros path handler. rewrite elem_of_nil. tauto.
  - destruct (routes config !! p) as [bound|] eqn:Hp.
    + rewrite register_bound by eauto. split; [done|].
      intros [_ Hfree]. specialize (Hfree p (list_elem_of_here _ _)).
      rewrite Hp in Hfree. discriminate Hfree.
    + destruct (register_free p h config Hp) as (config1 & -> & Hroutes).
      specialize (IH config1). destruct (register_all table config1) as [e|config'].
      * destruct IH as [-> Hnot]. split; [done|]. intros [Hnodup Hfree].
        apply Hnot. apply NoDup_cons in Hnodup as [Hp_new Hnodup].
        split; [done|]. intros path Hpath. rewrite Hroutes.
        rewrite lookup_insert_ne by (intros Heq; apply Hp_new; by rewrite Heq).
        by apply Hfree, list_elem_of_further.
      * destruct IH as [[Hnodup Hfree] Hbound]. split.
        -- split.
           ++ apply NoDup_cons. split; [|done]. intros Hin.
              specialize (Hfree p Hin). rewrite Hroutes, lookup_insert_eq in Hfree.
              discriminate.
           ++ intros path Hpath. apply elem_of_cons in Hpath as [Heq|Hin].
              { by rewrite Heq. }
              specialize (Hfree path Hin). rewrite Hroutes in Hfree.
              apply lookup_insert_None in Hfree. tauto.
        -- intros path handler. rewrite Hbound, Hroutes, elem_of_cons.
           rewrite lookup_insert_Some. split.
           ++ intros [Hin|[[Hpath Hhandler]|[Hne Hold]]]; [by auto| |by auto].
              left. left. by rewrite Hpath, Hhandler.
           ++ intros [[Heq|Hin]|Hold]; [|by auto|].
              { injection Heq as Hpath Hhandler. auto. }
              right. right. split; [congruence|done].
Qed.

(** C6. A sequence of [register] calls on a new configuration succeeds
    exactly when its paths are pairwise distinct, and fails with
    [DuplicatePathError] otherwise. On the table it builds, [resolve] gives
    for every registered path the handler class bound to it and nothing
    else, registering a bound path again fails with [DuplicatePathError],
    and [resolve] on any other path fails with [UnknownRouteError]. *)
Theorem registry_contract table verify debug' :
  match register_all table (new verify debug') with
  | inr config =>
      NoDup table.*1 ∧
      (∀ path handler,
         (path, handler) ∈ table →
         resolve config path = inr handler ∧
         ∀ handler', register path handler' config = inl DuplicatePathError) ∧
      (∀ path handler, resolve config path = inr handler → (path, handler) ∈ table) ∧
      (∀ path, path ∉ table.*1 → resolve config path = inl UnknownRouteError)
  | inl e => e = DuplicatePathError ∧ ¬ NoDup table.*1
  end.
Proof.
  pose proof (register_all_spec table (new verify debug')) as Hspec.
  destruct (register_all table (new verify debug')) as [e|config].
  - destruct Hspec as [-> Hnot]. split; [done|]. intros Hnodup.
    apply Hnot. split; [done|]. intros path _. apply lookup_empty.
  - destruct Hspec as [[Hnodup _] Hbound]. split; [done|].
    assert (∀ path handler,
              routes config !! path = Some handler ↔ (path, handler) ∈ table)
      as Hroutes.
    { intros path handler. rewrite Hbound. simpl. rewrite lookup_empty.
      split; [intros [Hin|Hnone]; [done|discriminate Hnone]|by left]. }
    split; [|split].
    + intros path handler Hin. apply Hroutes in Hin. split.
      * by apply resolve_lookup.
      * intros handler'. apply register_bound. eauto.
    + intros path handler Hresolve. by apply Hroutes, resolve_lookup.
    + intros path Hpath. apply resolve_unknown.
      destruct (routes config !! path) as [handler|] eqn:Hlookup; [|done].
      exfalso. apply Hpath. apply Hroutes in Hlookup.
      apply list_elem_of_fmap. by exists (path, handler).
Qed.

End Registry.

(** The route table of the server: the eight registrations succeed, every
    registered path resolves to its handler class and another path does not
    resolve. *)
Lemma config_registered :
  ∃ table,
    config = inr table ∧
    Forall (λ '(path, handler), WebhookConfiguration.resolve table path = inr handler)
      registrations ∧
    WebhookConfiguration.resolve table "/missing" =
      inl WebhookConfiguration.UnknownRouteError.
Proof.
  destruct config as [e|table] eqn:Hconfig; [by vm_compute in Hconfig|].
  exists table. split; [done|].
  vm_compute in Hconfig. injection Hconfig as <-.
  split; [|by vm_compute]. repeat constructor.
Qed.

(** ** The properties on small experiments *)

Section Examples.

Import ElnExperimentProtocol.

Lemma halved_experiment_distinct : distinct_entries halved_experiment.
Proof. compute_done. Defined.

Lemma halved_experiment_source :
  first_of_type "Sample" halved_experiment 1 (table_step 1 "Samples" "Sample" 8).
Proof.
  repeat split. intros [|j] s' Hj Hs'; [|lia]. by injection Hs' as <-.
Defined.

Lemma halved_experiment_aliquot :
  next_of_type "Sample" halved_experiment 1 3 (table_step 2 "Aliquots" "Sample" 4).
Proof.
  repeat split; [lia|]. intros j s' Hj Hs'.
  assert (j = 2%nat) as -> by lia. by injection Hs' as <-.
Defined.

(** C1, what the code does. On an experiment whose first Sample step holds
    no record and is followed by another Sample step, the ratio handler
    reaches the division by the source count: [ZeroDivisionError] escapes
    from [run], which returns neither a result nor a message. *)
Theorem ratio_empty_source_raises :
  first_of_type "Sample" empty_source_experiment 0 (table_step 1 "Samples" "Sample" 0) ∧
  length (get_records (table_step 1 "Samples" "Sample" 0)) = 0%nat ∧
  next_of_type "Sample" empty_source_experiment 0 1 (table_step 2 "Aliquots" "Sample" 4) ∧
  run ElnSampleAliquotRatioCountHandler (context_of empty_source_experiment) console =
    Raised ZeroDivisionError.
Proof.
  assert (first_of_type "Sample" empty_source_experiment 0
            (table_step 1 "Samples" "Sample" 0)) as Hfirst.
  { repeat split. intros j s' Hj. lia. }
  assert (next_of_type "Sample" empty_source_experiment 0 1
            (table_step 2 "Aliquots" "Sample" 4)) as Hnext.
  { repeat split; [lia|]. intros j s' Hj. lia. }
  split; [exact Hfirst|]. split; [reflexivity|]. split; [exact Hnext|].
  apply (ratio_zero_source _ (experiment_of empty_source_experiment) _ 0
           (table_step 1 "Samples" "Sample" 0) 1 (table_step 2 "Aliquots" "Sample" 4));
    [done|compute_done|done..].
Qed.

(** C5, refuted as stated. With three source records and one aliquot record
    the text shown is the prefix followed by 0.3333333333333333, a decimal
    whose value is not 1/3. *)
Lemma ratio_text_not_exact :
  first_of_type "Sample" thirds_experiment 0 (table_step 1 "Samples" "Sample" 3) ∧
  next_of_type "Sample" thirds_experiment 0 1 (table_step 2 "Aliquots" "Sample" 1) ∧
  run ElnSampleAliquotRatioCountHandler (context_of thirds_experiment) console =
    Returned
      (SapioWebhookResult.mk true
         (Some "The aliquot to sample ratio is: 0.3333333333333333") None)
      console ∧
  ¬ encodes_exactly "The aliquot to sample ratio is: 0.3333333333333333" (1 # 3).
Proof.
  split; [|split; [|split]].
  - repeat split. intros j s' Hj. lia.
  - repeat split; [lia|]. intros j s' Hj. lia.
  - by vm_compute.
  - intros (numeral & v & Htext & Hvalue & Hv).
    unfold ratio_prefix in Htext. cbv [String.append] in Htext.
    injection Htext as <-.
    vm_compute in Hvalue. injection Hvalue as <-.
    vm_compute in Hv. discriminate Hv.
Qed.

Lemma get_next_step_strictly_after_witness :
  match get_next_step (experiment_of halved_experiment)
          (table_step 1 "Samples" "Sample" 8) "Sample" with
  | Some s =>
      (∃ k, next_of_type "Sample" halved_experiment 1 k s) ∧
      s ≠ table_step 1 "Samples" "Sample" 8 ∧
      ∀ j, (j ≤ 1)%nat → halved_experiment !! j ≠ Some s
  | None => none_of_type_after "Sample" halved_experiment 1
  end.
Proof.
  apply (get_next_step_strictly_after (experiment_of halved_experiment)
           (table_step 1 "Samples" "Sample" 8) "Sample" 1).
  - exact halved_experiment_distinct.
  - reflexivity.
Defined.

Lemma feedback_round_one_witness :
  ∃ request feeling comments,
    run UserFeedbackHandler empty_context console =
      Returned (SapioWebhookResult.mk true None (Some request)) console ∧
    field_definition_list (data_type_def request) = [feeling; comments] ∧
    data_field_name feeling = "Feeling" ∧
    data_field_type feeling = BOOLEAN ∧
    required feeling = true ∧
    data_field_name comments = "Comments" ∧
    data_field_type comments = STRING ∧
    required comments = false ∧
    max_length comments = Some 2000.
Proof. apply (feedback_round_one empty_context console). reflexivity. Defined.

Lemma feedback_cancelled_witness :
  run UserFeedbackHandler
    (context_answering (mkFormEntryDialogResult true {[ "Feeling" := VBool true ]}))
    console =
  Returned (SapioWebhookResult.mk true (Some "You have Cancelled!") None)
    (mkState ["Cancelled."] tt).
Proof.
  apply (feedback_cancelled
           (context_answering (mkFormEntryDialogResult true {[ "Feeling" := VBool true ]}))
           (mkFormEntryDialogResult true {[ "Feeling" := VBool true ]}) console);
    reflexivity.
Defined.

Lemma feedback_feeling_good_witness :
  run UserFeedbackHandler
    (context_answering (mkFormEntryDialogResult false {[ "Feeling" := VBool true ]}))
    console =
  Returned
    (SapioWebhookResult.mk true (Some "User felt very good! Nothing to do here...") None)
    (mkState ["User felt very good! Nothing to do here..."] tt).
Proof.
  apply (feedback_feeling_good
           (context_answering (mkFormEntryDialogResult false {[ "Feeling" := VBool true ]}))
           (mkFormEntryDialogResult false {[ "Feeling" := VBool true ]}) console);
    reflexivity.
Defined.

Lemma ratio_absent_steps_witness :
  run ElnSampleAliquotRatioCountHandler (context_of source_only_experiment) console =
    Returned
      (SapioWebhookResult.mk true (Some "There are no aliquot sample table.") None)
      console.
Proof.
  apply (ratio_absent_steps (context_of source_only_experiment)
           (experiment_of source_only_experiment) console eq_refl)
    with (i := 1%nat) (source := table_step 1 "Samples" "Sample" 8).
  - compute_done.
  - repeat split. intros [|j] s' Hj Hs'; [|lia]. by injection Hs' as <-.
  - intros [|[|j]] s' Hj Hs'; try lia. discriminate Hs'.
Defined.

Lemma ratio_text_witness :
  ∃ ratio,
    PyFloat.int_true_div (Z.of_nat 4) (Z.of_nat 8) = inr ratio ∧
    run ElnSampleAliquotRatioCountHandler (context_of halved_experiment) console =
      Returned
        (SapioWebhookResult.mk true (Some (ratio_prefix +:+ PyFloat.repr ratio)) None)
        console ∧
    (2 * Qabs (PyFloat.to_Q ratio - inject_Z (Z.of_nat 4) / inject_Z (Z.of_nat 8))
     <= Qpower 2 (PyFloat.expo ratio))%Q ∧
    (8%nat = 8%nat → 4%nat = 4%nat →
     ratio_prefix +:+ PyFloat.repr ratio = "The aliquot to sample ratio is: 0.5" ∧
     encodes_exactly (ratio_prefix +:+ PyFloat.repr ratio) (4 # 8)).
Proof.
  apply (ratio_text (context_of halved_experiment) (experiment_of halved_experiment)
           console 1 (table_step 1 "Samples" "Sample" 8) 3
           (table_step 2 "Aliquots" "Sample" 4) 8 4).
  - reflexivity.
  - exact halved_experiment_distinct.
  - exact halved_experiment_source.
  - exact halved_experiment_aliquot.
  - reflexivity.
  - reflexivity.
  - lia.
  - unfold sys_maxsize. lia.
Defined.

Lemma handlers_always_pass_witness :
  ∃ result st',
    run HelloWorldWebhookHandler empty_context console = Returned result st' ∧
    SapioWebhookResult.passed result = true.
Proof.
  eexists _, _. split; [reflexivity|].
  apply (handlers_always_pass HelloWorldWebhookHandler empty_context console _ _ eq_refl).
Defined.

End Examples.

(** ** Further properties of the division *)

Section FurtherDivision.

Import PyFloat.

Lemma int_true_div_zero_divisor a b :
  int_true_div a b = inl ZeroDivisionError → b = 0.
Proof.
  unfold int_true_div. destruct (b =? 0) eqn:Hb; [by apply Z.eqb_eq in Hb|].
  destruct (round_ratio _ _) as [m e]. by destruct (emax <? e).
Qed.

Lemma round_ratio_same a : 0 < a → round_ratio a a = (2 ^ 52, -52).
Proof.
  intros Ha. unfold round_ratio, ratio_log2.
  assert ((a =? 0) = false) as -> by (apply Z.eqb_neq; lia).
  rewrite Z.sub_diag. change (0 <=? 0) with true. cbn match.
  rewrite Z.pow_0_r, Z.mul_1_r, Z.leb_refl.
  change (Z.max (0 - 52) emin) with (-52).
  change (Z.max (- -52) 0) with 52. change (Z.max (-52) 0) with 0.
  rewrite Z.pow_0_r, Z.mul_1_r.
  rewrite (Z.mul_comm a), Z.div_mul, Z.mod_mul by lia.
  assert ((a <? 2 * 0) = false) as -> by (apply Z.ltb_ge; lia).
  assert ((a =? 2 * 0) = false) as -> by (apply Z.eqb_neq; lia).
  reflexivity.
Qed.

Lemma int_true_div_same a :
  0 < a → int_true_div a a = inr (mk false (2 ^ 52) (-52)).
Proof.
  intros Ha. unfold int_true_div.
  assert ((a =? 0) = false) as -> by (apply Z.eqb_neq; lia).
  rewrite Z.abs_eq, round_ratio_same by lia.
  assert ((a <? 0) = false) as -> by (apply Z.ltb_ge; lia).
  reflexivity.
Qed.

Lemma int_true_div_of_zero b :
  0 < b → int_true_div 0 b = inr (mk false 0 0).
Proof.
  intros Hb. unfold int_true_div.
  assert ((b =? 0) = false) as -> by (apply Z.eqb_neq; lia).
  assert ((b <? 0) = false) as -> by (apply Z.ltb_ge; lia).
  reflexivity.
Qed.

End FurtherDivision.

(** ** Further properties of the handlers *)

Section FurtherProperties.

Context {W : Type} `{Sapio W}.

Import ElnExperimentProtocol.

Implicit Types (context : SapioWebhookContext.t) (st : State W).
Implicit Types (protocol : ElnExperimentProtocol.t) (handler : HandlerClass).


(** X2. A round two that was not cancelled is decided by the truth value of
    the Feeling response alone: a truthy value gives the positive message,
    any other value gives the negative message followed by [str] of the
    Comments response. A response map without the two keys gives the negative
    message with the comment None. The message is also printed. *)
Theorem feedback_answer_by_truthiness context answer st :
  SapioWebhookContext.client_callback_result context = Some answer →
  user_cancelled answer = false →
  ∃ msg,
    run UserFeedbackHandler context st =
      Returned (SapioWebhookResult.mk true (Some msg) None)
        (mkState (stdout st ++ [msg]) (platform st)) ∧
    (truthy (dict_get (user_response_map answer) "Feeling") = true → msg = felt_good) ∧
    (truthy (dict_get (user_response_map answer) "Feeling") = false →
     msg = felt_bad (dict_get (user_response_map answer) "Comments")) ∧
    (user_response_map answer !! "Feeling" = None →
     user_response_map answer !! "Comments" = None →
     msg = "=_= User didn't feel very good. The comment left was: None").
Proof.
  intros Hanswer Hcancel. unfold_run. rewrite Hanswer, Hcancel. simpl.
  eexists. split; [reflexivity|]. split; [|split].
  - by intros ->.
  - by intros ->.
  - intros Hfeeling Hcomments. unfold dict_get. by rewrite Hfeeling, Hcomments.
Qed.


(** X4. The new-goo handler returns the same passed result with the text
    New Goo! on every context and prints one line; without a record on the
    context, the line ends with None. *)
Theorem new_goo_whatever_record context1 context2 st :
  ∃ line1 line2,
    run NewGooOnSaveRuleHandler context1 st =
      Returned (SapioWebhookResult.mk true (Some "New Goo!") None)
        (mkState (stdout st ++ [line1]) (platform st)) ∧
    run NewGooOnSaveRuleHandler context2 st =
      Returned (SapioWebhookResult.mk true (Some "New Goo!") None)
        (mkState (stdout st ++ [line2]) (platform st)) ∧
    (SapioWebhookContext.data_record context1 = None → line1 = "New Goo 'None").
Proof.
  eexists _, _. split; [reflexivity|]. split; [reflexivity|].
  by intros ->.
Qed.

(** X5. The rule handler fails on incomplete contexts, whatever the platform
    does: without an entry list it raises [TypeError]; with an entry list but
    without an experiment, [AttributeError]; with an experiment and an empty
    entry list, [IndexError]. *)
Theorem experiment_rule_missing_input context st :
  (SapioWebhookContext.experiment_entry_list context = None →
   run ExperimentRuleHandler context st = Raised TypeError) ∧
  (is_Some (SapioWebhookContext.experiment_entry_list context) →
   SapioWebhookContext.eln_experiment context = None →
   run ExperimentRuleHandler context st = Raised AttributeError) ∧
  (SapioWebhookContext.experiment_entry_list context = Some [] →
   is_Some (SapioWebhookContext.eln_experiment context) →
   run ExperimentRuleHandler context st = Raised IndexError).
Proof.
  split; [|split].
  - intros Hentries. unfold_run. by rewrite Hentries.
  - intros [entries Hentries] Hexperiment. unfold_run.
    by rewrite Hentries, Hexperiment.
  - intros Hentries [experiment Hexperiment]. unfold_run.
    by rewrite Hentries, Hexperiment.
Qed.

(** X6. With an experiment and a non-empty entry list on the context, the
    rule handler asks the platform for the records of the first entry only.
    If that call fails its exception escapes; otherwise the handler returns a
    bare passed result after printing the names of all entries, the name of
    the experiment and the NewField values of the records. *)
Theorem experiment_rule_first_entry context st experiment entry entries :
  SapioWebhookContext.experiment_entry_list context = Some (entry :: entries) →
  SapioWebhookContext.eln_experiment context = Some experiment →
  run ExperimentRuleHandler context st =
    match get_data_records_for_entry (SapioWebhookContext.user context)
            (notebook_experiment_id experiment) (entry_id entry) (platform st) with
    | Returned records w =>
        Returned (SapioWebhookResult.mk true None None)
          (mkState
             (stdout st ++
              [ "Experiment Entries of Rule: " +:+
                  join "," (entry_name <$> entry :: entries);
                "Notebook Experiment of Rule: " +:+ notebook_experiment_name experiment;
                "Record Values were: " +:+
                  join "," ((λ r, py_str (get_field_value r "NewField")) <$> records) ])
             w)
    | Raised e => Raised e
    end.
Proof.
  intros Hentries Hexperiment. unfold_run. rewrite Hentries, Hexperiment.
  cbn [stdout platform].
  destruct (get_data_records_for_entry _ _ _ _); [|done].
  cbn [stdout platform]. by rewrite <- !app_assoc.
Qed.

(** X11. The ratio, sample-creation and bar-chart handlers raise
    [AttributeError] on a context without an active protocol, before any call
    to the platform. *)
Theorem missing_protocol_raises handler context st :
  reads_protocol handler = true →
  SapioWebhookContext.active_protocol context = None →
  run handler context st = Raised AttributeError.
Proof.
  intros Hreads Hnone.
  destruct handler; try discriminate Hreads; unfold_run; by rewrite Hnone.
Qed.

(** X7. A result that carries a callback request can only come from the
    feedback handler in round one; it has no display text and nothing was
    printed or changed. No other handler ever asks the user back. *)
Theorem only_feedback_asks_back handler context st result st' :
  run handler context st = Returned result st' →
  is_Some (SapioWebhookResult.client_callback_request result) →
  handler = UserFeedbackHandler ∧
  SapioWebhookContext.client_callback_result context = None ∧
  SapioWebhookResult.display_text result = None ∧
  st' = st.
Proof.
  intros Hrun [request Hrequest].
  destruct handler; run_cases; done.
Qed.

End FurtherProperties.

Section FurtherRatio.

Context {W : Type} `{Sapio W}.

Import ElnExperimentProtocol.

Implicit Types (context : SapioWebhookContext.t) (st : State W).
Implicit Types (protocol : ElnExperimentProtocol.t) (handler : HandlerClass).

(** X8. The ratio handler reads nothing of the context but its active
    protocol: two contexts with the same protocol give the same outcome.
    When it returns, console and platform are unchanged and the result has a
    display text. *)
Theorem ratio_reads_protocol_only context1 context2 st :
  SapioWebhookContext.active_protocol context1 =
    SapioWebhookContext.active_protocol context2 →
  run ElnSampleAliquotRatioCountHandler context1 st =
    run ElnSampleAliquotRatioCountHandler context2 st ∧
  ∀ result st',
    run ElnSampleAliquotRatioCountHandler context1 st = Returned result st' →
    st' = st ∧ is_Some (SapioWebhookResult.display_text result).
Proof.
  intros Hsame. split.
  - unfold_run. by rewrite Hsame.
  - intros result st' Hrun. run_cases; eauto.
Qed.

(** X9. On an experiment with pairwise distinct entries the ratio handler
    raises [ZeroDivisionError] exactly when the first Sample step holds no
    record and another Sample step follows it. *)
Theorem ratio_zero_division_iff context protocol st :
  SapioWebhookContext.active_protocol context = Some protocol →
  distinct_entries (steps protocol) →
  run ElnSampleAliquotRatioCountHandler context st = Raised ZeroDivisionError ↔
  ∃ i source k aliquot,
    first_of_type "Sample" (steps protocol) i source ∧
    next_of_type "Sample" (steps protocol) i k aliquot ∧
    get_records source = [].
Proof.
  intros Hprotocol Hdistinct. split.
  - intros Hrun.
    destruct (get_first_step_of_type protocol "Sample") as [source|] eqn:Hfirst.
    + apply find_first_of_type in Hfirst as [i Hfirst].
      pose proof Hfirst as (Hi & _).
      pose proof (position_distinct _ _ _ Hdistinct Hi) as Hpos.
      pose proof (get_next_step_position protocol source "Sample" i Hpos) as Hnext.
      destruct (get_next_step protocol source "Sample") as [aliquot|] eqn:Haliquot.
      * destruct Hnext as [k Hnext]. exists i, source, k, aliquot.
        split; [done|]. split; [done|].
        rewrite (ratio_run context protocol st i source k aliquot) in Hrun by done.
        destruct (PyFloat.int_true_div _ _) as [e|ratio] eqn:Hdiv; [|done].
        injection Hrun as ->. apply int_true_div_zero_divisor in Hdiv.
        destruct (get_records source); [done|]. simpl in Hdiv. lia.
      * exfalso. revert Hrun. unfold_run. rewrite Hprotocol.
        unfold get_first_step_of_type.
        by rewrite (first_of_type_find _ _ _ _ Hfirst), Haliquot.
    + exfalso. revert Hrun. unfold_run. by rewrite Hprotocol, Hfirst.
  - intros (i & source & k & aliquot & Hfirst & Hnext & Hempty).
    by apply (ratio_zero_source context protocol st i source k aliquot).
Qed.

(** X10. With a non-empty source table, an empty aliquot table gives the
    ratio text 0.0 and an aliquot table with as many records as the source
    table gives the ratio text 1.0, whatever the counts are. *)
Theorem ratio_of_none_and_of_all context protocol st i source k aliquot :
  SapioWebhookContext.active_protocol context = Some protocol →
  distinct_entries (steps protocol) →
  first_of_type "Sample" (steps protocol) i source →
  next_of_type "Sample" (steps protocol) i k aliquot →
  get_records source ≠ [] →
  (get_records aliquot = [] →
   run ElnSampleAliquotRatioCountHandler context st =
     Returned
       (SapioWebhookResult.mk true (Some "The aliquot to sample ratio is: 0.0") None) st) ∧
  (length (get_records aliquot) = length (get_records source) →
   run ElnSampleAliquotRatioCountHandler context st =
     Returned
       (SapioWebhookResult.mk true (Some "The aliquot to sample ratio is: 1.0") None) st).
Proof.
  intros Hprotocol Hdistinct Hfirst Hnext Hsome.
  rewrite (ratio_run context protocol st i source k aliquot) by done.
  assert (0 < Z.of_nat (length (get_records source))) as Hpos.
  { destruct (get_records source); [done|]. simpl. lia. }
  split.
  - intros ->. simpl length. by rewrite int_true_div_of_zero.
  - intros ->. by rewrite int_true_div_same.
Qed.

End FurtherRatio.

Section FurtherPlatform.

Context {W : Type} `{Sapio W}.

Import ElnExperimentProtocol.

Implicit Types (context : SapioWebhookContext.t) (st : State W).
Implicit Types (protocol : ElnExperimentProtocol.t) (handler : HandlerClass).

(** The loop that collects the field values of the samples. *)
Lemma sample_fields_loop (ids : list string) (done_so_far : list (gmap string PyVal)) :
  foldl (λ sample_fields sample_id,
           sample_fields ++
             [ {[ "ExemplarSampleType" := VStr "Blood";
                  "SampleId" := VStr sample_id ]} ])
    done_so_far ids = done_so_far ++ (blood_sample <$> ids).
Proof.
  revert done_so_far. induction ids as [|sample_id ids IH]; intros done_so_far; simpl.
  - by rewrite app_nil_r.
  - rewrite IH. by rewrite <- app_assoc.
Qed.

(** X12. The step-creation handler adds a Request record, stamps its
    RequestId with the date of the day, commits it, then creates the form
    step for that record, the sample table and the text entry, in this order
    and each on the platform state left by the call before. When the five
    calls succeed it returns a bare passed result; a missing active protocol
    is handed to the platform as it is. *)
Theorem step_creation_calls context st record w1 w2 form w3 table w4 text w5 :
  add_data_record (SapioWebhookContext.user context) "Request" (platform st) =
    Returned record w1 →
  commit_data_records (SapioWebhookContext.user context)
    [set_field_value record "RequestId"
       (VStr ("Python Webhook Demo Request " +:+ date_today w1))] w1 =
    Returned tt w2 →
  create_form_step (SapioWebhookContext.active_protocol context) "Request Data" "Request"
    (set_field_value record "RequestId"
       (VStr ("Python Webhook Demo Request " +:+ date_today w1))) w2 =
    Returned form w3 →
  create_table_step (SapioWebhookContext.active_protocol context) "Samples" "Sample" w3 =
    Returned table w4 →
  create_text_entry (SapioWebhookContext.active_protocol context) "Hello World!" w4 =
    Returned text w5 →
  run ElnStepCreationHandler context st =
    Returned (SapioWebhookResult.mk true None None) (mkState (stdout st) w5).
Proof.
  intros Hadd Hcommit Hform Htable Htext. unfold_run. cbn [stdout platform].
  rewrite Hadd. cbn [stdout platform]. rewrite Hcommit. cbn [stdout platform].
  rewrite Hform. cbn [stdout platform]. rewrite Htable. cbn [stdout platform].
  by rewrite Htext.
Qed.

(** X13. When the commit of the Request record fails, the step-creation
    handler raises the exception of the commit: the outcome does not depend
    on the step factory, no step is created. *)
Theorem step_creation_commit_fails context st record w1 e :
  add_data_record (SapioWebhookContext.user context) "Request" (platform st) =
    Returned record w1 →
  commit_data_records (SapioWebhookContext.user context)
    [set_field_value record "RequestId"
       (VStr ("Python Webhook Demo Request " +:+ date_today w1))] w1 =
    Raised e →
  run ElnStepCreationHandler context st = Raised e.
Proof.
  intros Hadd Hcommit. unfold_run. cbn [stdout platform].
  rewrite Hadd. cbn [stdout platform]. by rewrite Hcommit.
Qed.

(** X14. When the experiment has a Sample step, the sample-creation handler
    creates no step: it asks for eight sample ids, creates one Blood sample
    record per id received, in order, and adds the records to the entry of
    the first Sample step. *)
Theorem sample_creation_into_first_table context protocol st i step ids w1 records w2 w3 :
  SapioWebhookContext.active_protocol context = Some protocol →
  first_of_type "Sample" (steps protocol) i step →
  get_accession_with_config_list (SapioWebhookContext.user context)
    "Sample" "SampleId" 8 (platform st) = Returned ids w1 →
  add_data_records_with_data (SapioWebhookContext.user context) "Sample"
    (blood_sample <$> ids) w1 = Returned records w2 →
  add_records_to_table_entry (SapioWebhookContext.user context)
    (notebook_experiment_id (eln_experiment protocol)) (entry_id (eln_entry step))
    records w2 = Returned tt w3 →
  run ElnSampleCreationHandler context st =
    Returned (SapioWebhookResult.mk true None None) (mkState (stdout st) w3).
Proof.
  intros Hprotocol Hfirst Hids Hrecords Hadd. unfold_run. rewrite Hprotocol.
  unfold get_first_step_of_type. rewrite (first_of_type_find _ _ _ _ Hfirst).
  cbn [stdout platform]. rewrite Hids. cbn [stdout platform].
  rewrite sample_fields_loop. cbn [app]. rewrite Hrecords. cbn [stdout platform].
  by rewrite Hadd.
Qed.

(** X15. When the experiment has no Sample step, the sample-creation
    handler first creates the table step Samples of type Sample, then asks
    for eight sample ids, creates one Blood sample record per id received
    and adds the records to the entry of the new step. *)
Theorem sample_creation_into_new_table context protocol st step w0 ids w1 records w2 w3 :
  SapioWebhookContext.active_protocol context = Some protocol →
  (∀ j s, steps protocol !! j = Some s → has_type "Sample" s = false) →
  create_table_step (Some protocol) "Samples" "Sample" (platform st) =
    Returned step w0 →
  get_accession_with_config_list (SapioWebhookContext.user context)
    "Sample" "SampleId" 8 w0 = Returned ids w1 →
  add_data_records_with_data (SapioWebhookContext.user context) "Sample"
    (blood_sample <$> ids) w1 = Returned records w2 →
  add_records_to_table_entry (SapioWebhookContext.user context)
    (notebook_experiment_id (eln_experiment protocol)) (entry_id (eln_entry step))
    records w2 = Returned tt w3 →
  run ElnSampleCreationHandler context st =
    Returned (SapioWebhookResult.mk true None None) (mkState (stdout st) w3).
Proof.
  intros Hprotocol Hnone Hstep Hids Hrecords Hadd. unfold_run. rewrite Hprotocol.
  unfold get_first_step_of_type. rewrite (none_of_type_find _ _ Hnone).
  cbn [stdout platform]. rewrite Hstep. cbn [stdout platform].
  rewrite Hids. cbn [stdout platform].
  rewrite sample_fields_loop. cbn [app]. rewrite Hrecords. cbn [stdout platform].
  by rewrite Hadd.
Qed.

(** X16. Without a Sample step the bar-chart handler returns a text asking to
    create one and makes no call to the platform. With one, it creates the
    chart of Concentration against SampleId on the first Sample step; the
    outcome is a bare passed result, or the exception of that call. *)
Theorem bar_chart_on_first_table context protocol st :
  SapioWebhookContext.active_protocol context = Some protocol →
  ((∀ j s, steps protocol !! j = Some s → has_type "Sample" s = false) →
   run BarChartDashboardCreationHandler context st =
     Returned
       (SapioWebhookResult.mk true (Some "There are no sample step. Create it first.") None)
       st) ∧
  (∀ i step,
     first_of_type "Sample" (steps protocol) i step →
     run BarChartDashboardCreationHandler context st =
       match create_bar_chart_step (Some protocol) step "Concentration vs Sample ID"
               "SampleId" "Concentration" (platform st) with
       | Returned chart w =>
           Returned (SapioWebhookResult.mk true None None) (mkState (stdout st) w)
       | Raised e => Raised e
       end).
Proof.
  intros Hprotocol. split.
  - intros Hnone. unfold_run. rewrite Hprotocol.
    unfold get_first_step_of_type. by rewrite (none_of_type_find _ _ Hnone).
  - intros i step Hfirst. unfold_run. rewrite Hprotocol.
    unfold get_first_step_of_type. rewrite (first_of_type_find _ _ _ _ Hfirst).
    by destruct (create_bar_chart_step _ _ _ _ _ _).
Qed.

End FurtherPlatform.

(** ** The route table of the server *)

(** X17. The eight registrations of the server succeed. The table they build
    resolves a path to a handler class exactly when the pair was registered,
    and every handler class is served at exactly one path. *)
Theorem route_table_dispatch :
  ∃ table,
    config = inr table ∧
    (∀ path handler,
       WebhookConfiguration.resolve table path = inr handler ↔
       (path, handler) ∈ registrations) ∧
    (∀ handler,
       ∃ path,
         WebhookConfiguration.resolve table path = inr handler ∧
         ∀ path', WebhookConfiguration.resolve table path' = inr handler → path' = path).
Proof.
  pose proof (register_all_spec registrations (WebhookConfiguration.new false true))
    as Hspec.
  fold config in Hspec. destruct config as [e|table].
  { exfalso. destruct Hspec as [_ Hnot]. apply Hnot. split; [compute_done|].
    intros path _. apply lookup_empty. }
  destruct Hspec as [_ Hroutes]. exists table. split; [done|].
  assert (∀ path handler,
            WebhookConfiguration.resolve table path = inr handler ↔
            (path, handler) ∈ registrations) as Hresolve.
  { intros path handler. rewrite resolve_lookup, Hroutes. simpl.
    rewrite lookup_empty. split; [intros [Hin|Hnone]; [done|discriminate Hnone]|by left]. }
  split; [done|]. intros handler.
  assert (∃ path, (path, handler) ∈ registrations) as [path Hpath].
  { destruct handler; eexists; unfold registrations;
      repeat first [ apply list_elem_of_here | apply list_elem_of_further ]. }
  exists path. split; [by apply Hresolve|].
  intros path' Hpath'. apply Hresolve in Hpath'. revert Hpath Hpath'.
  unfold registrations. intros Hpath Hpath'.
  repeat (apply elem_of_cons in Hpath as [Hpath|Hpath];
          [injection Hpath as Hp Hh|]);
    try (by apply elem_of_nil in Hpath);
    repeat (apply elem_of_cons in Hpath' as [Hpath'|Hpath'];
            [injection Hpath' as Hp' Hh'|]);
    try (by apply elem_of_nil in Hpath');
    congruence.
Qed.

Section FurtherExamples.

Import ElnExperimentProtocol.


Lemma feedback_answer_by_truthiness_witness :
  ∃ msg,
    run UserFeedbackHandler (context_answering (mkFormEntryDialogResult false ∅)) console =
      Returned (SapioWebhookResult.mk true (Some msg) None)
        (mkState (stdout console ++ [msg]) (platform console)) ∧
    msg = "=_= User didn't feel very good. The comment left was: None".
Proof.
  destruct (feedback_answer_by_truthiness
              (context_answering (mkFormEntryDialogResult false ∅))
              (mkFormEntryDialogResult false ∅) console eq_refl eq_refl)
    as (msg & Hrun & _ & _ & Hmissing).
  exists msg. split; [exact Hrun|]. apply Hmissing; reflexivity.
Defined.


Lemma experiment_rule_first_entry_witness :
  run ExperimentRuleHandler
    (context_of_rule [mkExperimentEntry 7 "Samples" "Sample";
                      mkExperimentEntry 9 "Notes" "Text"])
    bench_start =
  Returned (SapioWebhookResult.mk true None None)
    (mkState
       [ "Experiment Entries of Rule: Samples,Notes";
         "Notebook Experiment of Rule: Experiment";
         "Record Values were: 7,None" ]
       1%nat).
Proof.
  rewrite (experiment_rule_first_entry
             (context_of_rule [mkExperimentEntry 7 "Samples" "Sample";
                               mkExperimentEntry 9 "Notes" "Text"])
             bench_start (mkElnExperiment 1 "Experiment")
             (mkExperimentEntry 7 "Samples" "Sample")
             [mkExperimentEntry 9 "Notes" "Text"] eq_refl eq_refl).
  reflexivity.
Defined.

Lemma missing_protocol_raises_witness :
  run BarChartDashboardCreationHandler empty_context bench_start = Raised AttributeError.
Proof.
  apply (missing_protocol_raises BarChartDashboardCreationHandler empty_context
           bench_start); reflexivity.
Defined.

Lemma only_feedback_asks_back_witness :
  ∃ result st',
    run UserFeedbackHandler empty_context console = Returned result st' ∧
    is_Some (SapioWebhookResult.client_callback_request result) ∧
    st' = console.
Proof.
  eexists _, _. split; [reflexivity|]. split; [by eexists|].
  eapply (only_feedback_asks_back UserFeedbackHandler empty_context console);
    [reflexivity|by eexists].
Defined.

Lemma ratio_reads_protocol_only_witness :
  run ElnSampleAliquotRatioCountHandler (context_of halved_experiment) console =
  run ElnSampleAliquotRatioCountHandler
    (answered (context_of halved_experiment) (mkFormEntryDialogResult true ∅)) console.
Proof.
  apply (ratio_reads_protocol_only (context_of halved_experiment)
           (answered (context_of halved_experiment) (mkFormEntryDialogResult true ∅))
           console).
  reflexivity.
Defined.

Lemma empty_source_experiment_distinct : distinct_entries empty_source_experiment.
Proof. compute_done. Defined.

Lemma ratio_zero_division_iff_witness :
  run ElnSampleAliquotRatioCountHandler (context_of empty_source_experiment) console =
    Raised ZeroDivisionError ↔
  ∃ i source k aliquot,
    first_of_type "Sample" empty_source_experiment i source ∧
    next_of_type "Sample" empty_source_experiment i k aliquot ∧
    get_records source = [].
Proof.
  apply (ratio_zero_division_iff (context_of empty_source_experiment)
           (experiment_of empty_source_experiment) console).
  - reflexivity.
  - exact empty_source_experiment_distinct.
Defined.

Lemma ratio_of_none_and_of_all_witness :
  run ElnSampleAliquotRatioCountHandler
    (context_of [table_step 1 "Samples" "Sample" 3; table_step 2 "Aliquots" "Sample" 3])
    console =
  Returned (SapioWebhookResult.mk true (Some "The aliquot to sample ratio is: 1.0") None)
    console.
Proof.
  apply (ratio_of_none_and_of_all
           (context_of [table_step 1 "Samples" "Sample" 3;
                        table_step 2 "Aliquots" "Sample" 3])
           (experiment_of [table_step 1 "Samples" "Sample" 3;
                           table_step 2 "Aliquots" "Sample" 3])
           console 0 (table_step 1 "Samples" "Sample" 3) 1
           (table_step 2 "Aliquots" "Sample" 3)).
  - reflexivity.
  - compute_done.
  - split; [reflexivity|]. split; [reflexivity|]. intros j s' Hj. lia.
  - split; [lia|]. split; [reflexivity|]. split; [reflexivity|]. intros j s' Hj. lia.
  - discriminate.
  - reflexivity.
Defined.

Lemma step_creation_calls_witness :
  run ElnStepCreationHandler empty_context bench_start =
  Returned (SapioWebhookResult.mk true None None) (mkState [] 5%nat).
Proof.
  apply (step_creation_calls empty_context bench_start
           (mkDataRecord "Request" 0 ∅) 1%nat 2%nat
           (mkElnEntryStep (mkExperimentEntry 2 "Request Data" "Request")
              [set_field_value (mkDataRecord "Request" 0 ∅) "RequestId"
                 (VStr "Python Webhook Demo Request 2023-01-01")])
           3%nat
           (mkElnEntryStep (mkExperimentEntry 3 "Samples" "Sample") []) 4%nat
           (mkElnEntryStep (mkExperimentEntry 4 "Hello World!" "Text") []) 5%nat);
    reflexivity.
Defined.

Lemma step_creation_commit_fails_witness :
  run (H := bench_read_only) ElnStepCreationHandler empty_context bench_start =
  Raised (SapioServerException "read only").
Proof.
  apply (step_creation_commit_fails (H := bench_read_only) empty_context bench_start
           (mkDataRecord "Request" 0 ∅) 1%nat); reflexivity.
Defined.

Lemma sample_creation_into_first_table_witness :
  run ElnSampleCreationHandler (context_of halved_experiment) bench_start =
  Returned (SapioWebhookResult.mk true None None) (mkState [] 3%nat).
Proof.
  apply (sample_creation_into_first_table (context_of halved_experiment)
           (experiment_of halved_experiment) bench_start 1
           (table_step 1 "Samples" "Sample" 8)
           ((λ k, "S-" +:+ pretty k) <$> seq 0 8) 1%nat
           (imap (λ i f, mkDataRecord "Sample" (Z.of_nat i) f)
              (blood_sample <$> ((λ k, "S-" +:+ pretty k) <$> seq 0 8)))
           2%nat 3%nat).
  - reflexivity.
  - split; [reflexivity|]. split; [reflexivity|].
    intros [|j] s' Hj Hs'; [|lia]. by injection Hs' as <-.
  - reflexivity.
  - reflexivity.
  - reflexivity.
Defined.

Lemma sample_creation_into_new_table_witness :
  run ElnSampleCreationHandler (context_of []) bench_start =
  Returned (SapioWebhookResult.mk true None None) (mkState [] 4%nat).
Proof.
  apply (sample_creation_into_new_table (context_of []) (experiment_of []) bench_start
           (mkElnEntryStep (mkExperimentEntry 0 "Samples" "Sample") []) 1%nat
           ((λ k, "S-" +:+ pretty k) <$> seq 0 8) 2%nat
           (imap (λ i f, mkDataRecord "Sample" (Z.of_nat i) f)
              (blood_sample <$> ((λ k, "S-" +:+ pretty k) <$> seq 0 8)))
           3%nat 4%nat).
  - reflexivity.
  - intros j s Hj. discriminate Hj.
  - reflexivity.
  - reflexivity.
  - reflexivity.
  - reflexivity.
Defined.

Lemma bar_chart_on_first_table_witness :
  run BarChartDashboardCreationHandler (context_of []) bench_start =
  Returned
    (SapioWebhookResult.mk true (Some "There are no sample step. Create it first.") None)
    bench_start.
Proof.
  apply (bar_chart_on_first_table (context_of []) (experiment_of []) bench_start eq_refl).
  intros j s Hj. discriminate Hj.
Defined.

End FurtherExamples.
